(** * crowdScope dashboard controller (script.js)

    A shallow embedding of the browser-side controller: the script's two
    variables, the DOM regions it writes, and the part of the host
    environment it talks to (interval timers, [fetch], the console).

    The script runs on the browser's single-threaded event loop.  Every
    piece of code between two suspension points is embedded as one
    computation in a state-and-exception monad; the event loop is the
    function [step], which consumes one event at a time. *)

From Stdlib Require Import String Ascii List Bool Arith ZArith Lia.
From Stdlib Require Import DecimalString.
Import ListNotations.
Open Scope string_scope.

(** ** JavaScript values and the platform operations the script uses *)

Module JS.

(** A value produced by [response.json()].  Numbers are the integers
    (the status object carries an integer head count); a number with a
    fractional part is outside this model.  A number is printed exactly
    by [string_of_Z] when it is a safe integer (see [safe_integer]);
    statements about printed numbers assume that. *)
#[local] Unset Elimination Schemes.
Inductive json : Type :=
| JNull
| JBool (b : bool)
| JNum (n : Z)
| JStr (s : string)
| JArr (l : list json)
| JObj (kv : list (string * json)).

#[local] Set Elimination Schemes.

(** The result of reading a property: [None] is [undefined]. *)
Definition value := option json.

Inductive exn : Type :=
| TypeError (msg : string)
| ReferenceError (name : string)
| SyntaxError (msg : string).

(** The integers a double holds exactly and prints digit for digit:
    those of absolute value at most 2^53 - 1. *)
Definition safe_integer (n : Z) : bool :=
  (Z.abs n <=? 9007199254740991)%Z.

(** Every number inside the value is a safe integer. *)
Fixpoint numbers_exact (v : json) : bool :=
  match v with
  | JNum n => safe_integer n
  | JArr l => forallb numbers_exact l
  | JObj kv => forallb (fun p => numbers_exact (snd p)) kv
  | JNull | JBool _ | JStr _ => true
  end.

(** [Number::toString] on a safe integer: its decimal digits. *)
Definition string_of_Z (n : Z) : string :=
  NilZero.string_of_int (Z.to_int n).

Fixpoint assoc (k : string) (kv : list (string * json)) : value :=
  match kv with
  | [] => None
  | (k', v) :: r => if String.eqb k k' then Some v else assoc k r
  end.

(** [ToString(v)] for a defined value.  An array is joined with commas,
    [null] elements giving the empty string.  A plain object prints as
    "[object Object]" unless it has an own property [toString]: coming
    out of JSON that property is not callable, [valueOf] then yields the
    object itself, and the conversion throws. *)
Fixpoint ToString (v : json) : exn + string :=
  match v with
  | JNull => inr "null"
  | JBool true => inr "true"
  | JBool false => inr "false"
  | JNum n => inr (string_of_Z n)
  | JStr s => inr s
  | JArr l =>
      (fix join (l : list json) : exn + string :=
         match l with
         | [] => inr ""
         | x :: r =>
             match (match x with JNull => inr "" | _ => ToString x end) with
             | inl e => inl e
             | inr sx =>
                 match r with
                 | [] => inr sx
                 | _ :: _ =>
                     match join r with
                     | inl e => inl e
                     | inr sr => inr (sx ++ "," ++ sr)
                     end
                 end
             end
         end) l
  | JObj kv =>
      match assoc "toString" kv with
      | Some _ => inl (TypeError "Cannot convert object to primitive value")
      | None => inr "[object Object]"
      end
  end.

(** Conversion done by the [textContent] setter (a nullable DOMString):
    [null] and [undefined] both give the empty string, anything else
    goes through [ToString] and may throw before the text is set. *)
Definition to_text (v : value) : exn + string :=
  match v with
  | None => inr ""
  | Some JNull => inr ""
  | Some j => ToString j
  end.

(** [ToBoolean], the test performed by [if (v)]. *)
Definition truthy (v : value) : bool :=
  match v with
  | None => false
  | Some JNull => false
  | Some (JBool b) => b
  | Some (JNum n) => negb (Z.eqb n 0)
  | Some (JStr s) => negb (String.eqb s "")
  | Some (JArr _) => true
  | Some (JObj _) => true
  end.

(** [v === 0]. *)
Definition strict_eq_zero (v : value) : bool :=
  match v with
  | Some (JNum n) => Z.eqb n 0
  | _ => false
  end.

(** Reading the data property [name] of [v].  Reading from [null]
    throws; the only built-in data property the script reads is
    [length]. *)
Definition get_prop (v : json) (name : string) : exn + value :=
  match v with
  | JNull =>
      inl (TypeError ("Cannot read properties of null (reading '" ++ name ++ "')"))
  | JObj kv => inr (assoc name kv)
  | JArr l =>
      inr (if String.eqb name "length"
           then Some (JNum (Z.of_nat (List.length l))) else None)
  | JStr s =>
      inr (if String.eqb name "length"
           then Some (JNum (Z.of_nat (String.length s))) else None)
  | JBool _ | JNum _ => inr None
  end.

(** [s.substring(a, b)]: both indices are clamped to the length and
    swapped when out of order. *)
Definition substring (s : string) (a b : nat) : string :=
  let len := String.length s in
  let a' := Nat.min a len in
  let b' := Nat.min b len in
  String.substring (Nat.min a' b') (Nat.max a' b' - Nat.min a' b') s.

(** *** Regular expressions

    The one regular expression of the script is a sequence of literal
    characters and [\d], with two capturing groups and no alternation
    or variable repetition, so matching at a position is
    deterministic. *)

Inductive atom : Type :=
| Lit (c : ascii)
| Digit.

Inductive item : Type :=
| Plain (l : list atom)
| Group (l : list atom).

Definition regex := list item.

Definition is_digit (c : ascii) : bool :=
  ((48 <=? nat_of_ascii c) && (nat_of_ascii c <=? 57))%nat.

Definition atom_matches (a : atom) (c : ascii) : bool :=
  match a with
  | Lit c' => Ascii.eqb c' c
  | Digit => is_digit c
  end.

(** Match the atoms at the start of [s]: the matched text and the rest. *)
Fixpoint match_atoms (p : list atom) (s : string) : option (string * string) :=
  match p with
  | [] => Some ("", s)
  | a :: p' =>
      match s with
      | EmptyString => None
      | String c s' =>
          if atom_matches a c then
            match match_atoms p' s' with
            | Some (m, rest) => Some (String c m, rest)
            | None => None
            end
          else None
      end
  end.

(** Match the whole expression at the start of [s]: the matched text,
    the captures in order, and the rest. *)
Fixpoint match_items (r : regex) (s : string)
  : option (string * list string * string) :=
  match r with
  | [] => Some ("", [], s)
  | it :: r' =>
      let p := match it with Plain l => l | Group l => l end in
      match match_atoms p s with
      | None => None
      | Some (m, rest) =>
          match match_items r' rest with
          | None => None
          | Some (m', gs, rest') =>
              Some (m ++ m',
                    match it with Plain _ => gs | Group _ => m :: gs end,
                    rest')
          end
      end
  end.

(** [RegExp.prototype.exec] without the global flag: the leftmost
    match, as the array [whole; capture 1; capture 2; ...]. *)
Fixpoint exec (r : regex) (s : string) : option (list string) :=
  match match_items r s with
  | Some (m, gs, _) => Some (m :: gs)
  | None =>
      match s with
      | EmptyString => None
      | String _ s' => exec r s'
      end
  end.

Definition lits (s : string) : list atom := map Lit (list_ascii_of_string s).

End JS.
Import JS.

(** ** The world: DOM regions, script variables, host environment *)

(** A child of the recordings list: either the nodes the browser builds
    from markup assigned to [innerHTML], or a [div] the script created
    with [createElement] and appended. *)
Inductive node : Type :=
| Markup (html : string)
| Div (className : string) (innerHTML : string).

(** The callbacks the script hands to [setInterval]. *)
Inductive callback : Type :=
| CB_updateStatus.

Record timer : Type := mkTimer {
  t_id : nat;
  t_callback : callback;
  t_delay : nat;
  t_due : nat
}.

(** The async function a pending [fetch] resumes. *)
Inductive continuation : Type :=
| K_updateStatus
| K_fetchRecordings.

(** What a request resolves to.  [fetch] rejects only when the transfer
    itself fails; an HTTP error status still resolves with a response.
    [body] is the outcome of [response.json()]: [None] when the body is
    not valid JSON. *)
Record response : Type := mkResponse {
  http_status : nat;
  body : option json
}.

Inductive fetch_outcome : Type :=
| NetworkFailure
| Responded (r : response).

Record world : Type := mkWorld {
  (* DOM *)
  videoFeed_src : string;
  statusIndicator_className : string;
  statusText : string;
  headCount : string;
  recordingStatus : string;
  motionStatus : string;
  recordingsList : list node;
  (* script variables *)
  isRunning : bool;
  statusInterval : option nat;
  (* host environment *)
  clock : nat;
  timers : list timer;
  next_timer : nat;
  pending : list (nat * continuation);
  next_request : nat;
  requests : list (string * nat);
  console : list (string * option exn)
}.

Definition set_videoFeed_src (v : string) (w : world) : world :=
  mkWorld v (statusIndicator_className w) (statusText w) (headCount w)
    (recordingStatus w) (motionStatus w) (recordingsList w) (isRunning w)
    (statusInterval w) (clock w) (timers w) (next_timer w) (pending w)
    (next_request w) (requests w) (console w).

Definition set_statusIndicator_className (v : string) (w : world) : world :=
  mkWorld (videoFeed_src w) v (statusText w) (headCount w)
    (recordingStatus w) (motionStatus w) (recordingsList w) (isRunning w)
    (statusInterval w) (clock w) (timers w) (next_timer w) (pending w)
    (next_request w) (requests w) (console w).

Definition set_statusText (v : string) (w : world) : world :=
  mkWorld (videoFeed_src w) (statusIndicator_className w) v (headCount w)
    (recordingStatus w) (motionStatus w) (recordingsList w) (isRunning w)
    (statusInterval w) (clock w) (timers w) (next_timer w) (pending w)
    (next_request w) (requests w) (console w).

Definition set_headCount (v : string) (w : world) : world :=
  mkWorld (videoFeed_src w) (statusIndicator_className w) (statusText w) v
    (recordingStatus w) (motionStatus w) (recordingsList w) (isRunning w)
    (statusInterval w) (clock w) (timers w) (next_timer w) (pending w)
    (next_request w) (requests w) (console w).

Definition set_recordingStatus (v : string) (w : world) : world :=
  mkWorld (videoFeed_src w) (statusIndicator_className w) (statusText w)
    (headCount w) v (motionStatus w) (recordingsList w) (isRunning w)
    (statusInterval w) (clock w) (timers w) (next_timer w) (pending w)
    (next_request w) (requests w) (console w).

Definition set_motionStatus (v : string) (w : world) : world :=
  mkWorld (videoFeed_src w) (statusIndicator_className w) (statusText w)
    (headCount w) (recordingStatus w) v (recordingsList w) (isRunning w)
    (statusInterval w) (clock w) (timers w) (next_timer w) (pending w)
    (next_request w) (requests w) (console w).

Definition set_recordingsList (v : list node) (w : world) : world :=
  mkWorld (videoFeed_src w) (statusIndicator_className w) (statusText w)
    (headCount w) (recordingStatus w) (motionStatus w) v (isRunning w)
    (statusInterval w) (clock w) (timers w) (next_timer w) (pending w)
    (next_request w) (requests w) (console w).

Definition set_isRunning (v : bool) (w : world) : world :=
  mkWorld (videoFeed_src w) (statusIndicator_className w) (statusText w)
    (headCount w) (recordingStatus w) (motionStatus w) (recordingsList w) v
    (statusInterval w) (clock w) (timers w) (next_timer w) (pending w)
    (next_request w) (requests w) (console w).

Definition set_statusInterval (v : option nat) (w : world) : world :=
  mkWorld (videoFeed_src w) (statusIndicator_className w) (statusText w)
    (headCount w) (recordingStatus w) (motionStatus w) (recordingsList w)
    (isRunning w) v (clock w) (timers w) (next_timer w) (pending w)
    (next_request w) (requests w) (console w).

Definition set_clock (v : nat) (w : world) : world :=
  mkWorld (videoFeed_src w) (statusIndicator_className w) (statusText w)
    (headCount w) (recordingStatus w) (motionStatus w) (recordingsList w)
    (isRunning w) (statusInterval w) v (timers w) (next_timer w) (pending w)
    (next_request w) (requests w) (console w).

Definition set_timers (v : list timer) (w : world) : world :=
  mkWorld (videoFeed_src w) (statusIndicator_className w) (statusText w)
    (headCount w) (recordingStatus w) (motionStatus w) (recordingsList w)
    (isRunning w) (statusInterval w) (clock w) v (next_timer w) (pending w)
    (next_request w) (requests w) (console w).

Definition set_next_timer (v : nat) (w : world) : world :=
  mkWorld (videoFeed_src w) (statusIndicator_className w) (statusText w)
    (headCount w) (recordingStatus w) (motionStatus w) (recordingsList w)
    (isRunning w) (statusInterval w) (clock w) (timers w) v (pending w)
    (next_request w) (requests w) (console w).

Definition set_pending (v : list (nat * continuation)) (w : world) : world :=
  mkWorld (videoFeed_src w) (statusIndicator_className w) (statusText w)
    (headCount w) (recordingStatus w) (motionStatus w) (recordingsList w)
    (isRunning w) (statusInterval w) (clock w) (timers w) (next_timer w) v
    (next_request w) (requests w) (console w).

Definition set_next_request (v : nat) (w : world) : world :=
  mkWorld (videoFeed_src w) (statusIndicator_className w) (statusText w)
    (headCount w) (recordingStatus w) (motionStatus w) (recordingsList w)
    (isRunning w) (statusInterval w) (clock w) (timers w) (next_timer w)
    (pending w) v (requests w) (console w).

Definition set_requests (v : list (string * nat)) (w : world) : world :=
  mkWorld (videoFeed_src w) (statusIndicator_className w) (statusText w)
    (headCount w) (recordingStatus w) (motionStatus w) (recordingsList w)
    (isRunning w) (statusInterval w) (clock w) (timers w) (next_timer w)
    (pending w) (next_request w) v (console w).

Definition set_console (v : list (string * option exn)) (w : world) : world :=
  mkWorld (videoFeed_src w) (statusIndicator_className w) (statusText w)
    (headCount w) (recordingStatus w) (motionStatus w) (recordingsList w)
    (isRunning w) (statusInterval w) (clock w) (timers w) (next_timer w)
    (pending w) (next_request w) (requests w) v.

(** ** The monad of script code

    A computation reads and writes the world and either completes with a
    value or throws.  Writes made before a throw stay in place, as in
    JavaScript. *)

Inductive result (A : Type) : Type :=
| Ok (a : A)
| Throw (e : exn).
Arguments Ok {A} a.
Arguments Throw {A} e.

Definition M (A : Type) : Type := world -> result A * world.

Definition ret {A} (a : A) : M A := fun w => (Ok a, w).

Definition bind {A B} (m : M A) (k : A -> M B) : M B :=
  fun w =>
    match m w with
    | (Ok a, w') => k a w'
    | (Throw e, w') => (Throw e, w')
    end.

Definition throw {A} (e : exn) : M A := fun w => (Throw e, w).

Definition try_catch {A} (m : M A) (handler : exn -> M A) : M A :=
  fun w =>
    match m w with
    | (Ok a, w') => (Ok a, w')
    | (Throw e, w') => handler e w'
    end.

Definition modify (f : world -> world) : M unit := fun w => (Ok tt, f w).

Definition gets {A} (f : world -> A) : M A := fun w => (Ok (f w), w).

Definition lift {A} (r : exn + A) : M A :=
  match r with
  | inl e => throw e
  | inr a => ret a
  end.

Declare Scope js_scope.
Delimit Scope js_scope with js.
Notation "x <- m ;; k" := (bind m (fun x => k))
  (at level 61, m at next level, right associativity) : js_scope.
Notation "m ;; k" := (bind m (fun _ => k))
  (at level 61, right associativity) : js_scope.
Open Scope js_scope.

Definition when (b : bool) (m : M unit) : M unit :=
  if b then m else ret tt.

(** [l.forEach(f)]: stops at the first call that throws. *)
Fixpoint forEach {A} (l : list A) (f : A -> M unit) : M unit :=
  match l with
  | [] => ret tt
  | x :: r => f x ;; forEach r f
  end.

(** ** Host operations *)

(** [setInterval(cb, delay)]: registers a repeating timer and returns its
    handle.  Handles are positive integers. *)
Definition setInterval (cb : callback) (delay : nat) : M nat :=
  fun w =>
    let id := next_timer w in
    (Ok id,
     set_next_timer (S id)
       (set_timers (timers w ++ [mkTimer id cb delay (clock w + delay)]) w)).

(** [clearInterval(h)]: cancels the timer with that handle, if any. *)
Definition clearInterval (h : option nat) : M unit :=
  modify (fun w =>
    match h with
    | Some id => set_timers (filter (fun t => negb (Nat.eqb (t_id t) id)) (timers w)) w
    | None => w
    end).

(** [if (h)] for a variable holding [null] or a timer handle. *)
Definition handle_truthy (h : option nat) : bool :=
  match h with
  | Some (S _) => true
  | _ => false
  end.

(** [fetch(url)] at the head of an async function: the request is
    issued at once and recorded with the time of issue; the function
    is suspended until the request settles. *)
Definition fetch (url : string) (k : continuation) : M unit :=
  modify (fun w =>
    set_next_request (S (next_request w))
      (set_pending (pending w ++ [(next_request w, k)])
         (set_requests (requests w ++ [(url, clock w)]) w))).

(** [await fetch(...)], once the request has settled. *)
Definition await_fetch (o : fetch_outcome) : M response :=
  match o with
  | NetworkFailure => throw (TypeError "Failed to fetch")
  | Responded r => ret r
  end.

(** [await response.json()]. *)
Definition response_json (r : response) : M json :=
  match body r with
  | Some v => ret v
  | None => throw (SyntaxError "Unexpected token in JSON")
  end.

Definition console_error (msg : string) (e : option exn) : M unit :=
  modify (fun w => set_console (console w ++ [(msg, e)]) w).

(** Assigning [recordingsList.innerHTML]: the old children are dropped
    and replaced by what the markup parses to. *)
Definition parse_html (html : string) : list node :=
  if String.eqb html "" then [] else [Markup html].

Definition set_recordingsList_innerHTML (html : string) : M unit :=
  modify (set_recordingsList (parse_html html)).

Definition recordingsList_appendChild (n : node) : M unit :=
  modify (fun w => set_recordingsList (recordingsList w ++ [n]) w).

(** [recording.match(re)] on a value that came out of JSON: only a
    string has a [match] method. *)
Definition call_match (recording : json) (re : regex)
  : exn + option (list string) :=
  match recording with
  | JStr s => inr (exec re s)
  | JNull => inl (TypeError "Cannot read properties of null (reading 'match')")
  | _ => inl (TypeError "recording.match is not a function")
  end.

(** The text a piece of markup shows: everything outside the tags.
    This is what the browser shows when the markup holds no character
    reference, comment or attribute, as in the two fixed paragraphs the
    script assigns. *)
Fixpoint strip_tags (in_tag : bool) (s : string) : string :=
  match s with
  | EmptyString => EmptyString
  | String c r =>
      if in_tag then strip_tags (negb (Ascii.eqb c ">"%char)) r
      else if Ascii.eqb c "<"%char then strip_tags true r
      else String c (strip_tags false r)
  end.

Definition node_text (n : node) : string :=
  match n with
  | Markup html => strip_tags false html
  | Div _ html => strip_tags false html
  end.

Definition is_item (n : node) : bool :=
  match n with
  | Div _ _ => true
  | Markup _ => false
  end.

(** The class tokens of a [className] string. *)
Fixpoint split_spaces (cur : string) (s : string) : list string :=
  match s with
  | EmptyString => if String.eqb cur "" then [] else [cur]
  | String c r =>
      if Ascii.eqb c " "%char
      then (if String.eqb cur "" then [] else [cur]) ++ split_spaces "" r
      else split_spaces (cur ++ String c "") r
  end.

Definition classList (className : string) : list string :=
  split_spaces "" className.

Definition has_class (c : string) (className : string) : bool :=
  existsb (String.eqb c) (classList className).

Definition nl : string := String (ascii_of_nat 10) "".
Definition dq : string := String (ascii_of_nat 34) "".

(** ** The script *)

Section Dashboard.

(** [window.location.origin]. *)
Variable origin : string.

(** The script reads the identifier [OUTPUT_FOLDER] but declares it
    nowhere, so its value is whatever the enclosing page binds it to:
    [Some folder] when the page provides a binding, [None] when there is
    none. *)
Variable OUTPUT_FOLDER : option string.

Definition API_BASE_URL : string := origin.
Definition VIDEO_FEED_URL : string := API_BASE_URL ++ "/video_feed".
Definition STATUS_URL : string := API_BASE_URL ++ "/status".
Definition RECORDINGS_URL : string := API_BASE_URL ++ "/recordings".

(** Evaluating the identifier [OUTPUT_FOLDER]. *)
Definition read_OUTPUT_FOLDER : M string :=
  match OUTPUT_FOLDER with
  | Some folder => ret folder
  | None => throw (ReferenceError "OUTPUT_FOLDER")
  end.

(** [updateStatus()] up to its first [await]: the request is issued. *)
Definition updateStatus : M unit :=
  fetch STATUS_URL K_updateStatus.

(** The rest of [updateStatus], run when the request has settled.  The
    two [await]s are taken together: nothing of the script's state is
    read or written between them. *)
Definition updateStatus_resume (o : fetch_outcome) : M unit :=
  try_catch
    (response <- await_fetch o ;;
     data <- response_json response ;;
     hc <- lift (get_prop data "headCount") ;;
     hcText <- lift (to_text hc) ;;
     modify (set_headCount hcText) ;;
     rec <- lift (get_prop data "recording") ;;
     (if truthy rec then
        modify (set_recordingStatus "Recording") ;;
        modify (set_statusIndicator_className "status-indicator recording")
      else
        modify (set_recordingStatus "Not Recording") ;;
        modify (set_statusIndicator_className "status-indicator monitoring")) ;;
     st <- lift (get_prop data "status") ;;
     stText <- lift (to_text st) ;;
     modify (set_statusText stText) ;;
     ms <- lift (get_prop data "motionStatus") ;;
     msText <- lift (to_text ms) ;;
     modify (set_motionStatus msText))
    (fun error => console_error "Error fetching status:" (Some error)).

Definition startStatusUpdates : M unit :=
  h <- gets statusInterval ;;
  when (handle_truthy h) (clearInterval h) ;;
  updateStatus ;;
  id <- setInterval CB_updateStatus 1000 ;;
  modify (set_statusInterval (Some id)).

Definition stopStatusUpdates : M unit :=
  h <- gets statusInterval ;;
  when (handle_truthy h)
    (clearInterval h ;;
     modify (set_statusInterval None)).

(** [/motion_(\d{8})_(\d{6})\.avi/] *)
Definition motion_re : regex :=
  [Plain (lits "motion_"); Group (repeat Digit 8); Plain (lits "_");
   Group (repeat Digit 6); Plain (lits ".avi")].

(** The title of an entry, from the file name and the result of the
    match. *)
Definition dateStr_of (recording : string) (dateMatch : option (list string))
  : string :=
  match dateMatch with
  | Some m =>
      let year := JS.substring (nth 1 m "") 0 4 in
      let month := JS.substring (nth 1 m "") 4 6 in
      let day := JS.substring (nth 1 m "") 6 8 in
      let hour := JS.substring (nth 2 m "") 0 2 in
      let minute := JS.substring (nth 2 m "") 2 4 in
      let second := JS.substring (nth 2 m "") 4 6 in
      year ++ "-" ++ month ++ "-" ++ day ++ " "
           ++ hour ++ ":" ++ minute ++ ":" ++ second
  | None => recording
  end.

Definition title_markup (dateStr : string) : string :=
  "<div class=" ++ dq ++ "title" ++ dq ++ ">" ++ dateStr ++ "</div>".

(** The template literal assigned to [recordingItem.innerHTML]. *)
Definition item_markup (dateStr folder recording : string) : string :=
  nl ++ "                    " ++ title_markup dateStr ++ nl
  ++ "                    <div class=" ++ dq ++ "actions" ++ dq ++ ">" ++ nl
  ++ "                        <button class=" ++ dq ++ "btn" ++ dq
  ++ " onclick=" ++ dq ++ "window.location.href='/" ++ folder ++ "/"
  ++ recording ++ "'" ++ dq ++ ">" ++ nl
  ++ "                            <i class=" ++ dq ++ "fas fa-download" ++ dq
  ++ "></i> Download" ++ nl
  ++ "                        </button>" ++ nl
  ++ "                    </div>" ++ nl
  ++ "                ".

(** The callback of [recordings.forEach].  Once [recording.match] has
    returned, [recording] is a string, so converting it for the template
    cannot fail. *)
Definition render_recording (recording : json) : M unit :=
  let className := "recording-item" in
  dateMatch <- lift (call_match recording motion_re) ;;
  name <- lift (ToString recording) ;;
  let dateStr := dateStr_of name dateMatch in
  folder <- read_OUTPUT_FOLDER ;;
  let innerHTML := item_markup dateStr folder name in
  recordingsList_appendChild (Div className innerHTML).

(** [recordings.forEach(f)] on a value that came out of JSON: only an
    array has the method. *)
Definition call_forEach (recordings : json) (f : json -> M unit) : M unit :=
  match recordings with
  | JArr l => forEach l f
  | JNull => throw (TypeError "Cannot read properties of null (reading 'forEach')")
  | _ => throw (TypeError "recordings.forEach is not a function")
  end.

(** [fetchRecordings()] up to its first [await]. *)
Definition fetchRecordings : M unit :=
  fetch RECORDINGS_URL K_fetchRecordings.

(** The rest of [fetchRecordings], run when the request has settled. *)
Definition fetchRecordings_resume (o : fetch_outcome) : M unit :=
  try_catch
    (response <- await_fetch o ;;
     recordings <- response_json response ;;
     set_recordingsList_innerHTML "" ;;
     len <- lift (get_prop recordings "length") ;;
     if strict_eq_zero len then
       set_recordingsList_innerHTML "<p>No recordings found.</p>"
     else
       call_forEach recordings render_recording)
    (fun error =>
       console_error "Error fetching recordings:" (Some error) ;;
       set_recordingsList_innerHTML "<p>Error loading recordings.</p>").

(** *** Event handlers registered by [init] *)

Definition onStartClick : M unit :=
  running <- gets isRunning ;;
  when (negb running)
    (modify (set_videoFeed_src VIDEO_FEED_URL) ;;
     startStatusUpdates ;;
     modify (set_isRunning true)).

Definition onStopClick : M unit :=
  running <- gets isRunning ;;
  when running
    (modify (set_videoFeed_src "") ;;
     stopStatusUpdates ;;
     modify (set_isRunning false) ;;
     modify (set_statusText "Stopped") ;;
     modify (set_statusIndicator_className "status-indicator monitoring") ;;
     modify (set_recordingStatus "Not Recording") ;;
     modify (set_headCount "0") ;;
     modify (set_motionStatus "System Stopped")).

Definition onRefreshClick : M unit := fetchRecordings.

Definition onVideoError : M unit :=
  console_error "Video feed error" None ;;
  modify (set_statusText "Connection Error").

Definition init : M unit :=
  modify (set_videoFeed_src VIDEO_FEED_URL) ;;
  startStatusUpdates ;;
  fetchRecordings.

(** ** The event loop *)

Inductive event : Type :=
| ClickStart
| ClickStop
| ClickRefresh
| VideoError
| Tick                                     (* one millisecond passes *)
| Deliver (rid : nat) (o : fetch_outcome). (* request [rid] settles *)

(** Running a task to completion.  An exception that escapes the task is
    reported on the console by the host. *)
Definition dispatch (task : M unit) (w : world) : world :=
  match task w with
  | (Ok _, w') => w'
  | (Throw e, w') => set_console (console w' ++ [("Uncaught", Some e)]) w'
  end.

Definition run_callback (cb : callback) : M unit :=
  match cb with
  | CB_updateStatus => updateStatus
  end.

Definition resume (k : continuation) (o : fetch_outcome) : M unit :=
  match k with
  | K_updateStatus => updateStatus_resume o
  | K_fetchRecordings => fetchRecordings_resume o
  end.

Definition reschedule (now : nat) (t : timer) : timer :=
  if Nat.eqb (t_due t) now
  then mkTimer (t_id t) (t_callback t) (t_delay t) (t_due t + t_delay t)
  else t.

(** A due timer fires unless an earlier callback of the same instant has
    cleared it. *)
Definition fire (w : world) (t : timer) : world :=
  if existsb (fun t' => Nat.eqb (t_id t') (t_id t)) (timers w)
  then dispatch (run_callback (t_callback t)) w
  else w.

(** The clock advances by one millisecond and the timers that fall due
    run, in the order they were registered. *)
Definition tick (w : world) : world :=
  let now := S (clock w) in
  let due := filter (fun t => Nat.eqb (t_due t) now) (timers w) in
  fold_left fire due
    (set_timers (map (reschedule now) (timers w)) (set_clock now w)).

(** A settled request resumes the function that awaits it. *)
Definition deliver (rid : nat) (o : fetch_outcome) (w : world) : world :=
  match find (fun p => Nat.eqb (fst p) rid) (pending w) with
  | Some (_, k) =>
      dispatch (resume k o)
        (set_pending (filter (fun p => negb (Nat.eqb (fst p) rid)) (pending w)) w)
  | None => w
  end.

Definition step (w : world) (e : event) : world :=
  match e with
  | ClickStart => dispatch onStartClick w
  | ClickStop => dispatch onStopClick w
  | ClickRefresh => dispatch onRefreshClick w
  | VideoError => dispatch onVideoError w
  | Tick => tick w
  | Deliver rid o => deliver rid o w
  end.

Definition run (evs : list event) (w : world) : world :=
  fold_left step evs w.

(** [n] milliseconds pass with no other event. *)
Definition advance (n : nat) (w : world) : world :=
  run (repeat Tick n) w.

(** The page as the script finds it: the seven DOM properties it will
    write have whatever the document gives them. *)
Record document : Type := mkDocument {
  d_videoFeed_src : string;
  d_statusIndicator_className : string;
  d_statusText : string;
  d_headCount : string;
  d_recordingStatus : string;
  d_motionStatus : string;
  d_recordingsList : list node
}.

(** The world when the [DOMContentLoaded] listener has declared its
    variables ([isRunning = true], [statusInterval = null]) and is about
    to call [init]. *)
Definition on_load (d : document) : world :=
  mkWorld (d_videoFeed_src d) (d_statusIndicator_className d)
    (d_statusText d) (d_headCount d) (d_recordingStatus d)
    (d_motionStatus d) (d_recordingsList d)
    true None
    0 [] 1 [] 0 [] [].

(** The world once the listener has returned. *)
Definition initialized (d : document) : world :=
  dispatch init (on_load d).

(** *** Observations used in the statements *)

(** A polling timer is registered with the host. *)
Definition polling (w : world) : bool :=
  existsb (fun t => match t_callback t with CB_updateStatus => true end)
    (timers w).

(** The times at which status requests were issued. *)
Definition status_fetches (w : world) : list nat :=
  map snd (filter (fun r => String.eqb (fst r) STATUS_URL) (requests w)).

Definition is_some {A} (o : option A) : bool :=
  match o with
  | Some _ => true
  | None => false
  end.

(** The state invariant of the data model. *)
Definition invariant (w : world) : Prop :=
  (polling w = true <-> isRunning w = true)
  /\ (is_some (statusInterval w) = true <-> isRunning w = true)
  /\ (videoFeed_src w = VIDEO_FEED_URL <-> isRunning w = true)
  /\ (videoFeed_src w <> "" <-> isRunning w = true).

(** What the resumed fetch continuations never touch: the video source,
    the script variables, the clock, the timers and the request log. *)
Definition control (w : world)
  : string * bool * option nat * nat * list timer * nat * list (string * nat) :=
  (videoFeed_src w, isRunning w, statusInterval w, clock w, timers w,
   next_timer w, requests w).

Definition preserves_control {A} (m : M A) : Prop :=
  forall w, control (snd (m w)) = control w.

(** The shape of every reachable world: while running there is exactly
    one timer, the one [statusInterval] names; while stopped there is
    none. *)
Definition wf (w : world) : Prop :=
  1 <= next_timer w /\
  if isRunning w then
    exists id due,
      statusInterval w = Some (S id) /\ S id < next_timer w
      /\ timers w = [mkTimer (S id) CB_updateStatus 1000 due]
      /\ clock w < due /\ due <= clock w + 1000
      /\ videoFeed_src w = VIDEO_FEED_URL
  else
    statusInterval w = None /\ timers w = [] /\ videoFeed_src w = "".

Definition is_start (e : event) : bool :=
  match e with
  | ClickStart => true
  | _ => false
  end.

Definition is_stop (e : event) : bool :=
  match e with
  | ClickStop => true
  | _ => false
  end.

(** The four status-display regions (the recording region is the label
    together with the indicator). *)
Definition status_display (w : world) : string * (string * string) * string * string :=
  (headCount w, (recordingStatus w, statusIndicator_className w),
   statusText w, motionStatus w).

(** A status object as the data model describes it. *)
Definition is_StatusSnapshot (data : json)
  (hc : Z) (rec : bool) (st ms : string) : Prop :=
  exists kv,
    data = JObj kv
    /\ assoc "headCount" kv = Some (JNum hc)
    /\ assoc "recording" kv = Some (JBool rec)
    /\ assoc "status" kv = Some (JStr st)
    /\ assoc "motionStatus" kv = Some (JStr ms).

(** The request did not produce a parsed body: the transfer failed, or
    the body is not valid JSON (whatever the HTTP status). *)
Definition no_parsed_body (o : fetch_outcome) : bool :=
  match o with
  | NetworkFailure => true
  | Responded r => negb (is_some (body r))
  end.

(** An HTTP error response: status 400 or above. *)
Definition http_error (o : fetch_outcome) : bool :=
  match o with
  | NetworkFailure => false
  | Responded r => Nat.leb 400 (http_status r)
  end.

(** The title the script gives the entry of a file name. *)
Definition entry_title (recording : string) : string :=
  dateStr_of recording (exec motion_re recording).

Definition all_digits (s : string) : bool :=
  forallb is_digit (list_ascii_of_string s).

(** [d] and [t] are the two digit runs of the pattern. *)
Definition stamp (d t : string) : Prop :=
  String.length d = 8 /\ all_digits d = true
  /\ String.length t = 6 /\ all_digits t = true.

Definition motion_name (d t : string) : string :=
  "motion_" ++ d ++ "_" ++ t ++ ".avi".

(** The pattern matches inside [f], after the prefix [pre]. *)
Definition matches_at (pre d t post f : string) : Prop :=
  f = pre ++ motion_name d t ++ post /\ stamp d t.

Definition matches_pattern (f : string) : Prop :=
  exists pre d t post, matches_at pre d t post f.

(** [YYYY-MM-DD HH:MM:SS] from the two digit runs. *)
Definition formatted (d t : string) : string :=
  String.substring 0 4 d ++ "-" ++ String.substring 4 2 d ++ "-"
  ++ String.substring 6 2 d ++ " "
  ++ String.substring 0 2 t ++ ":" ++ String.substring 2 2 t ++ ":"
  ++ String.substring 4 2 t.

(** *** The title element as the browser reads it

    The markup of an entry is handed to [innerHTML], so the title text
    goes through the HTML parser.  The model follows the parser where
    the text is plain and through [<b>] and [</b>] tags; on any other
    construct it gives no answer. *)

(** The characters the parser does not copy into a text node as they
    are: the start of a tag, the start of a character reference, and CR
    and NUL, which it replaces or drops. *)
Definition markup_special (c : ascii) : bool :=
  Ascii.eqb c "<"%char || Ascii.eqb c "&"%char
  || Ascii.eqb c (ascii_of_nat 13) || Ascii.eqb c (ascii_of_nat 0).

Definition markup_plain (s : string) : bool :=
  forallb (fun c => negb (markup_special c)) (list_ascii_of_string s).

(** Plain, and free of the two quote characters, which end an attribute
    value or a script string. *)
Definition markup_safe (s : string) : bool :=
  forallb (fun c => negb (markup_special c || Ascii.eqb c (ascii_of_nat 34)
                          || Ascii.eqb c "'"%char))
    (list_ascii_of_string s).

Fixpoint starts_with (p s : string) : bool :=
  match p with
  | EmptyString => true
  | String a p' =>
      match s with
      | EmptyString => false
      | String b s' => Ascii.eqb a b && starts_with p' s'
      end
  end.

Fixpoint drop (n : nat) (s : string) : string :=
  match n, s with
  | S k, String _ r => drop k r
  | _, _ => s
  end.

Definition is_space (c : ascii) : bool :=
  Ascii.eqb c " "%char || Ascii.eqb c (ascii_of_nat 10)
  || Ascii.eqb c (ascii_of_nat 9) || Ascii.eqb c (ascii_of_nat 12).

Fixpoint skip_spaces (s : string) : string :=
  match s with
  | EmptyString => EmptyString
  | String c r => if is_space c then skip_spaces r else s
  end.

(** The text content of a [div] whose start tag has just been read, up
    to its end tag; [skip] counts the characters of a tag still to be
    passed over. *)
Fixpoint title_content (skip : nat) (s : string) : option string :=
  match s with
  | EmptyString => None
  | String c r =>
      match skip with
      | S k => title_content k r
      | 0 =>
          if starts_with "</div>" s then Some EmptyString
          else if starts_with "<b>" s then title_content 2 r
          else if starts_with "</b>" s then title_content 3 r
          else if markup_special c then None
          else option_map (String c) (title_content 0 r)
      end
  end.

(** The text of the title element of an entry, when its markup opens
    with that element. *)
Definition title_text (html : string) : option string :=
  let open := "<div class=" ++ dq ++ "title" ++ dq ++ ">" in
  let s := skip_spaces html in
  if starts_with open s
  then title_content 0 (drop (String.length open) s)
  else None.

(** *** Further observations *)

Definition is_tick (e : event) : bool :=
  match e with
  | Tick => true
  | _ => false
  end.

Definition is_refresh (e : event) : bool :=
  match e with
  | ClickRefresh => true
  | _ => false
  end.

(** Milliseconds that pass during a sequence of events. *)
Definition elapsed (evs : list event) : nat :=
  List.length (filter is_tick evs).

Definition refreshes (evs : list event) : nat :=
  List.length (filter is_refresh evs).

(** The times at which recordings requests were issued. *)
Definition recordings_fetches (w : world) : list nat :=
  map snd (filter (fun r => String.eqb (fst r) RECORDINGS_URL) (requests w)).

(** [v.name] for a value that is not [null]; [undefined] when the
    property is missing. *)
Definition field (v : json) (name : string) : value :=
  match get_prop v name with
  | inr x => x
  | inl _ => None
  end.

(** The list item of a file name, for the output folder [folder]. *)
Definition item_of (folder f : string) : node :=
  Div "recording-item" (item_markup (entry_title f) folder f).

Definition error_list : list node :=
  [Markup "<p>Error loading recordings.</p>"].

Definition placeholder_list : list node :=
  [Markup "<p>No recordings found.</p>"].

(** *** Sample data for the concrete runs *)

Definition sample_origin : string := "http://localhost:5000".

Definition sample_document : document :=
  mkDocument "" "status-indicator" "Initializing..." "0" "Not Recording"
    "No Motion" [].

Definition sample_snapshot : json :=
  JObj [("headCount", JNum 3); ("recording", JBool true);
        ("status", JStr "Recording"); ("motionStatus", JStr "Motion Detected")].

Definition sample_error_body : json :=
  JObj [("error", JStr "Internal Server Error")].

(** Bodies in which one property cannot be turned into text. *)
Definition sample_unprintable_headCount : json :=
  JObj [("headCount", JObj [("toString", JNum 1)]); ("recording", JBool true);
        ("status", JStr "Recording"); ("motionStatus", JStr "Motion Detected")].

Definition sample_unprintable_status : json :=
  JObj [("headCount", JNum 3); ("recording", JBool true);
        ("status", JArr [JObj [("toString", JNull)]]);
        ("motionStatus", JStr "Motion Detected")].

Definition sample_unprintable_motion : json :=
  JObj [("headCount", JNum 3); ("recording", JBool true);
        ("status", JStr "Recording");
        ("motionStatus", JObj [("toString", JStr "x"); ("valueOf", JNum 0)])].

(** ** Frame lemmas: what the resumed continuations leave alone *)

Lemma preserves_ret {A} (a : A) : preserves_control (ret a).
Proof. intros w; reflexivity. Qed.

Lemma preserves_throw {A} (e : exn) : preserves_control (@throw A e).
Proof. intros w; reflexivity. Qed.

Lemma preserves_lift {A} (r : exn + A) : preserves_control (lift r).
Proof. destruct r; intros w; reflexivity. Qed.

Lemma preserves_bind {A B} (m : M A) (k : A -> M B) :
  preserves_control m -> (forall a, preserves_control (k a)) ->
  preserves_control (bind m k).
Proof.
  intros Hm Hk w. unfold bind. specialize (Hm w).
  destruct (m w) as [[a | e] w']; cbn in *.
  - rewrite Hk. exact Hm.
  - exact Hm.
Qed.

Lemma preserves_try_catch {A} (m : M A) (h : exn -> M A) :
  preserves_control m -> (forall e, preserves_control (h e)) ->
  preserves_control (try_catch m h).
Proof.
  intros Hm Hh w. unfold try_catch. specialize (Hm w).
  destruct (m w) as [[a | e] w']; cbn in *.
  - exact Hm.
  - rewrite Hh. exact Hm.
Qed.

Lemma preserves_modify (f : world -> world) :
  (forall w, control (f w) = control w) -> preserves_control (modify f).
Proof. intros Hf w. apply Hf. Qed.

Lemma preserves_if {A} (b : bool) (m1 m2 : M A) :
  preserves_control m1 -> preserves_control m2 ->
  preserves_control (if b then m1 else m2).
Proof. destruct b; auto. Qed.

Lemma preserves_forEach {A} (l : list A) (f : A -> M unit) :
  (forall a, preserves_control (f a)) -> preserves_control (forEach l f).
Proof.
  intros Hf. induction l as [| x r IH]; cbn.
  - apply preserves_ret.
  - apply preserves_bind; auto.
Qed.

Ltac frame_modify :=
  apply preserves_modify; intros w; reflexivity.

Ltac frame :=
  repeat first
    [ match goal with |- forall _, _ => intro end
    | apply preserves_bind
    | apply preserves_try_catch
    | apply preserves_if
    | apply preserves_forEach
    | apply preserves_ret
    | apply preserves_throw
    | apply preserves_lift
    | frame_modify ].

Lemma preserves_await_fetch o : preserves_control (await_fetch o).
Proof. destruct o; frame. Qed.

Lemma preserves_response_json r : preserves_control (response_json r).
Proof. unfold response_json. destruct (body r); frame. Qed.

Lemma preserves_updateStatus_resume o :
  preserves_control (updateStatus_resume o).
Proof.
  unfold updateStatus_resume, console_error.
  frame; auto using preserves_await_fetch, preserves_response_json.
Qed.

Lemma preserves_render_recording recording :
  preserves_control (render_recording recording).
Proof.
  unfold render_recording, read_OUTPUT_FOLDER, recordingsList_appendChild.
  frame. destruct OUTPUT_FOLDER; frame.
Qed.

Lemma preserves_call_forEach recordings f :
  (forall a, preserves_control (f a)) ->
  preserves_control (call_forEach recordings f).
Proof. intros Hf. destruct recordings; cbn; frame; apply Hf. Qed.

Lemma preserves_fetchRecordings_resume o :
  preserves_control (fetchRecordings_resume o).
Proof.
  unfold fetchRecordings_resume, console_error, set_recordingsList_innerHTML.
  frame;
    auto using preserves_await_fetch, preserves_response_json,
      preserves_call_forEach, preserves_render_recording.
Qed.

Lemma preserves_resume k o : preserves_control (resume k o).
Proof.
  destruct k; [apply preserves_updateStatus_resume
              | apply preserves_fetchRecordings_resume].
Qed.

Lemma dispatch_control task w :
  preserves_control task -> control (dispatch task w) = control w.
Proof.
  intros H. unfold dispatch. specialize (H w).
  destruct (task w) as [[[] | e] w']; exact H.
Qed.

Lemma deliver_control rid o w : control (deliver rid o w) = control w.
Proof.
  unfold deliver. destruct (find _ (pending w)) as [[n k] |]; [| reflexivity].
  rewrite dispatch_control by apply preserves_resume. reflexivity.
Qed.

(** ** The endpoints are distinct and the feed address is not blank *)

Lemma append_eqb_l (a b c : string) :
  String.eqb (a ++ b) (a ++ c) = String.eqb b c.
Proof.
  induction a as [| x a IH]; cbn.
  - reflexivity.
  - rewrite Ascii.eqb_refl. exact IH.
Qed.

Lemma append_nonempty (a b : string) : b <> "" -> a ++ b <> "".
Proof. destruct a; cbn; [auto | discriminate]. Qed.

Lemma VIDEO_FEED_URL_not_blank : VIDEO_FEED_URL <> "".
Proof. apply append_nonempty. discriminate. Qed.

Lemma RECORDINGS_URL_not_STATUS_URL :
  String.eqb RECORDINGS_URL STATUS_URL = false.
Proof. unfold RECORDINGS_URL, STATUS_URL. rewrite append_eqb_l. reflexivity. Qed.

Lemma status_fetches_app (rq1 rq2 : list (string * nat)) w :
  requests w = (rq1 ++ rq2)%list ->
  status_fetches w
  = (map snd (filter (fun r => String.eqb (fst r) STATUS_URL) rq1)
     ++ map snd (filter (fun r => String.eqb (fst r) STATUS_URL) rq2))%list.
Proof.
  intros H. unfold status_fetches. rewrite H, filter_app, map_app. reflexivity.
Qed.

(** ** Reachable worlds are well formed *)

Lemma wf_control w w' : control w' = control w -> wf w -> wf w'.
Proof.
  unfold control, wf. intros H. injection H as -> -> -> -> -> -> _. auto.
Qed.

Lemma wf_initialized d : wf (initialized d).
Proof.
  unfold wf, initialized. cbn. split; [lia |].
  exists 0, 1000. repeat split; lia.
Qed.

Lemma wf_start w : wf w -> wf (step w ClickStart).
Proof.
  unfold wf. destruct w as [src cls st hc rs ms rl rn si clk tm nt pd nr rq co].
  cbn. destruct rn; cbn; [auto |].
  intros (Hnt & -> & -> & ->). cbn. split; [lia |].
  destruct nt as [| nt]; [lia |].
  exists nt, (clk + 1000). repeat split; lia.
Qed.

Lemma wf_stop w : wf w -> wf (step w ClickStop).
Proof.
  unfold wf. destruct w as [src cls st hc rs ms rl rn si clk tm nt pd nr rq co].
  cbn. destruct rn; cbn; [| auto].
  intros (Hnt & id & due & -> & Hid & -> & _). cbn.
  rewrite Nat.eqb_refl. cbn. auto.
Qed.

Lemma wf_tick w : wf w -> wf (tick w).
Proof.
  unfold wf, tick. destruct w as [src cls st hc rs ms rl rn si clk tm nt pd nr rq co].
  cbn. destruct rn; cbn.
  - intros (Hnt & id & due & -> & Hid & -> & Hlt & Hle & ->). cbn.
    unfold reschedule; cbn.
    destruct (Nat.eqb_spec due (S clk)) as [-> | Hne]; cbn.
    + unfold fire; cbn. rewrite Nat.eqb_refl. cbn. split; [lia |].
      exists id, (S clk + 1000). repeat split; lia.
    + split; [lia |]. exists id, due. repeat split; lia.
  - intros (Hnt & -> & -> & ->). cbn. auto.
Qed.

Lemma wf_step w e : wf w -> wf (step w e).
Proof.
  destruct e; cbn [step].
  - apply wf_start.
  - apply wf_stop.
  - unfold wf. destruct w. cbn. auto.
  - apply wf_control. destruct w; reflexivity.
  - apply wf_tick.
  - apply wf_control, deliver_control.
Qed.

Lemma wf_run evs w : wf w -> wf (run evs w).
Proof.
  revert w. induction evs as [| e evs IH]; intros w H; cbn.
  - exact H.
  - apply IH, wf_step, H.
Qed.

Lemma wf_reachable d evs : wf (run evs (initialized d)).
Proof. apply wf_run, wf_initialized. Qed.

Lemma wf_invariant w : wf w -> invariant w.
Proof.
  unfold wf, invariant, polling. intros [_ H].
  destruct (isRunning w).
  - destruct H as (id & due & -> & _ & -> & _ & _ & ->). cbn.
    pose proof VIDEO_FEED_URL_not_blank. intuition congruence.
  - destruct H as (-> & -> & ->). cbn.
    pose proof VIDEO_FEED_URL_not_blank. intuition congruence.
Qed.

(** C1.  After initialization, whatever sequence of start clicks, stop
    clicks, refresh clicks and video errors follows (interleaved in any
    way with timer ticks and settled requests), the polling timer is
    active exactly when the running flag is true, and the source of the
    video element is the live feed address, which is not blank, exactly
    when the running flag is true. *)
Theorem invariant_holds (d : document) (evs : list event) :
  invariant (run evs (initialized d)).
Proof. apply wf_invariant, wf_reachable. Qed.

(** ** Start and stop *)

Lemma start_when_running w : isRunning w = true -> step w ClickStart = w.
Proof. destruct w; cbn. intros ->. reflexivity. Qed.

Lemma stop_when_stopped w : isRunning w = false -> step w ClickStop = w.
Proof. destruct w; cbn. intros ->. reflexivity. Qed.

Lemma stop_when_running w :
  wf w -> isRunning w = true ->
  step w ClickStop
  = mkWorld "" "status-indicator monitoring" "Stopped" "0" "Not Recording"
      "System Stopped" (recordingsList w) false None (clock w) []
      (next_timer w) (pending w) (next_request w) (requests w) (console w).
Proof.
  unfold wf. destruct w as [src cls st hc rs ms rl rn si clk tm nt pd nr rq co].
  cbn. intros [_ H] ->. destruct H as (id & due & -> & _ & -> & _).
  cbn. rewrite Nat.eqb_refl. reflexivity.
Qed.

Lemma start_when_stopped w :
  wf w -> isRunning w = false ->
  step w ClickStart
  = mkWorld VIDEO_FEED_URL (statusIndicator_className w) (statusText w)
      (headCount w) (recordingStatus w) (motionStatus w) (recordingsList w)
      true (Some (next_timer w)) (clock w)
      [mkTimer (next_timer w) CB_updateStatus 1000 (clock w + 1000)]
      (S (next_timer w)) (pending w ++ [(next_request w, K_updateStatus)])
      (S (next_request w)) (requests w ++ [(STATUS_URL, clock w)]) (console w).
Proof.
  unfold wf. destruct w as [src cls st hc rs ms rl rn si clk tm nt pd nr rq co].
  cbn. intros [_ H] ->. destruct H as (-> & -> & _). reflexivity.
Qed.

(** While stopped, no event other than a start click issues a status
    request or sets the running flag. *)
Lemma stopped_step w e :
  wf w -> isRunning w = false -> is_start e = false ->
  isRunning (step w e) = false
  /\ status_fetches (step w e) = status_fetches w.
Proof.
  intros Hwf Hrun He. destruct e; try discriminate.
  - rewrite stop_when_stopped by assumption. auto.
  - split.
    + destruct w; exact Hrun.
    + unfold status_fetches. destruct w; cbn.
      rewrite filter_app, map_app. cbn.
      rewrite RECORDINGS_URL_not_STATUS_URL. cbn. apply app_nil_r.
  - destruct w; auto.
  - unfold wf in Hwf. rewrite Hrun in Hwf. destruct Hwf as (_ & _ & Htm & _).
    cbn [step]. unfold tick. rewrite Htm. cbn. destruct w; auto.
  - cbn [step]. pose proof (deliver_control rid o w) as H. unfold control in H.
    unfold status_fetches. injection H as _ -> _ _ _ _ ->. auto.
Qed.

Lemma stopped_run evs w :
  wf w -> isRunning w = false -> existsb is_start evs = false ->
  status_fetches (run evs w) = status_fetches w.
Proof.
  revert w. induction evs as [| e evs IH]; intros w Hwf Hrun Hev; cbn.
  - reflexivity.
  - cbn in Hev. apply orb_false_iff in Hev as [He Hev].
    destruct (stopped_step w e Hwf Hrun He) as [Hr Hs].
    rewrite IH; auto using wf_step.
Qed.

Lemma no_start_ticks n : existsb is_start (repeat Tick n) = false.
Proof. induction n; cbn; auto. Qed.

(** While running, no event other than a stop click clears the flag. *)
Lemma running_step w e :
  wf w -> isRunning w = true -> is_stop e = false ->
  isRunning (step w e) = true.
Proof.
  intros Hwf Hrun He. destruct e; try discriminate.
  - rewrite start_when_running by assumption. assumption.
  - destruct w; exact Hrun.
  - destruct w; exact Hrun.
  - cbn [step]. unfold wf in Hwf.
    destruct w as [src cls st hc rs ms rl rn si clk tm nt pd nr rq co].
    cbn in *. subst rn. destruct Hwf as (_ & id & due & -> & _ & -> & _).
    unfold tick. cbn. unfold reschedule. cbn.
    destruct (Nat.eqb due (S clk)); cbn; [| reflexivity].
    unfold fire. cbn. rewrite Nat.eqb_refl. reflexivity.
  - cbn [step]. pose proof (deliver_control rid o w) as H. unfold control in H.
    injection H as _ -> _ _ _ _ _. assumption.
Qed.

Lemma running_run evs w :
  wf w -> isRunning w = true -> existsb is_stop evs = false ->
  isRunning (run evs w) = true.
Proof.
  revert w. induction evs as [| e evs IH]; intros w Hwf Hrun Hev; cbn.
  - assumption.
  - cbn in Hev. apply orb_false_iff in Hev as [He Hev].
    apply IH; auto using wf_step, running_step.
Qed.

(** ** The polling timer *)

Lemma advance_add a b w : advance (a + b) w = advance b (advance a w).
Proof. unfold advance, run. rewrite repeat_app, fold_left_app. reflexivity. Qed.

Lemma advance_1 w : advance 1 w = tick w.
Proof. reflexivity. Qed.

Lemma tick_idle w id p due :
  timers w = [mkTimer id CB_updateStatus p due] -> S (clock w) <> due ->
  timers (tick w) = timers w /\ clock (tick w) = S (clock w)
  /\ status_fetches (tick w) = status_fetches w.
Proof.
  intros Htm Hne. unfold tick. rewrite Htm. cbn. unfold reschedule. cbn.
  destruct (Nat.eqb_spec due (S (clock w))) as [E | _]; [congruence |].
  cbn. destruct w; cbn in *. auto.
Qed.

Lemma tick_due w id p :
  timers w = [mkTimer id CB_updateStatus p (S (clock w))] ->
  timers (tick w) = [mkTimer id CB_updateStatus p (S (clock w) + p)]
  /\ clock (tick w) = S (clock w)
  /\ status_fetches (tick w) = (status_fetches w ++ [S (clock w)])%list.
Proof.
  intros Htm. unfold tick. rewrite Htm. cbn. unfold reschedule. cbn.
  rewrite Nat.eqb_refl. cbn. unfold fire. cbn. rewrite Nat.eqb_refl. cbn.
  unfold status_fetches. destruct w; cbn in *.
  rewrite filter_app, map_app. cbn. rewrite String.eqb_refl. auto.
Qed.

Lemma advance_idle n w id p due :
  timers w = [mkTimer id CB_updateStatus p due] -> clock w + n < due ->
  timers (advance n w) = timers w /\ clock (advance n w) = clock w + n
  /\ status_fetches (advance n w) = status_fetches w.
Proof.
  revert w. induction n as [| n IH]; intros w Htm Hlt.
  - cbn. auto.
  - change (S n) with (1 + n). rewrite advance_add, advance_1.
    destruct (tick_idle w id p due Htm) as (Ht & Hc & Hs); [lia |].
    destruct (IH (tick w)) as (Ht' & Hc' & Hs'); [congruence | lia |].
    rewrite Ht', Hc', Hs', Ht, Hc, Hs. repeat split. lia.
Qed.

(** With the timer due one period from now, [q] whole periods and a
    fraction later exactly [q] requests have gone out, one per period. *)
Lemma advance_periods q : forall r w id p,
  0 < p -> r < p ->
  timers w = [mkTimer id CB_updateStatus p (clock w + p)] ->
  status_fetches (advance (p * q + r) w)
  = (status_fetches w ++ map (fun k => clock w + p * k) (seq 1 q))%list.
Proof.
  induction q as [| q IH]; intros r w id p Hp Hr Htm.
  - rewrite Nat.mul_0_r. cbn [seq map Nat.add]. rewrite app_nil_r.
    apply (advance_idle r w id p (clock w + p)); [assumption | lia].
  - replace (p * S q + r) with ((p - 1) + (1 + (p * q + r))) by nia.
    rewrite advance_add, advance_add, advance_1.
    destruct (advance_idle (p - 1) w id p (clock w + p) Htm) as (Ht & Hc & Hs);
      [lia |].
    set (w1 := advance (p - 1) w) in *.
    assert (Htm1 : timers w1 = [mkTimer id CB_updateStatus p (S (clock w1))]).
    { rewrite Ht, Htm, Hc. do 2 f_equal. lia. }
    destruct (tick_due w1 id p Htm1) as (Ht2 & Hc2 & Hs2).
    set (w2 := tick w1) in *.
    rewrite (IH r w2 id p Hp Hr) by (rewrite Ht2, Hc2; reflexivity).
    rewrite Hs2, Hs, Hc2, Hc. rewrite <- app_assoc. f_equal.
    cbn [seq map]. cbn [app]. f_equal; [lia |].
    rewrite <- (seq_shift q 1), map_map. apply map_ext. intros k. nia.
Qed.

(** C3.  A stop click while the running flag is true blanks the video
    source, cancels the polling timer, clears the running flag and writes
    the five fixed display values (the indicator keeps its base class and
    gets the class "monitoring"); nothing else changes.  From then on no
    status request goes out, neither as time passes nor through any
    event other than a start click.  A stop click while the running flag
    is false changes nothing. *)
Theorem stop_click (d : document) (evs : list event) :
  let w := run evs (initialized d) in
  (isRunning w = true ->
   step w ClickStop
   = mkWorld "" "status-indicator monitoring" "Stopped" "0" "Not Recording"
       "System Stopped" (recordingsList w) false None (clock w) []
       (next_timer w) (pending w) (next_request w) (requests w) (console w)
   /\ has_class "monitoring"
        (statusIndicator_className (step w ClickStop)) = true
   /\ has_class "recording"
        (statusIndicator_className (step w ClickStop)) = false
   /\ polling (step w ClickStop) = false
   /\ (forall n,
         status_fetches (advance n (step w ClickStop)) = status_fetches w)
   /\ (forall evs',
         existsb is_start evs' = false ->
         status_fetches (run evs' (step w ClickStop)) = status_fetches w))
  /\ (isRunning w = false -> step w ClickStop = w).
Proof.
  intros w. pose proof (wf_reachable d evs) as Hwf. fold w in Hwf.
  split; [| apply stop_when_stopped].
  intros Hrun.
  pose proof (stop_when_running w Hwf Hrun) as Hstop.
  pose proof (wf_step w ClickStop Hwf) as Hwf'.
  assert (Hfl : isRunning (step w ClickStop) = false)
    by (rewrite Hstop; reflexivity).
  assert (Hsf : status_fetches (step w ClickStop) = status_fetches w)
    by (rewrite Hstop; reflexivity).
  split; [exact Hstop |].
  split; [rewrite Hstop; reflexivity |].
  split; [rewrite Hstop; reflexivity |].
  split; [rewrite Hstop; reflexivity |].
  split.
  - intros n. unfold advance.
    rewrite (stopped_run _ _ Hwf' Hfl (no_start_ticks n)). exact Hsf.
  - intros evs' Hev. rewrite (stopped_run _ _ Hwf' Hfl Hev). exact Hsf.
Qed.

(** C7.  A start click while the running flag is false puts the live
    feed address back on the video element, sets the running flag and
    restarts polling: one status request goes out at the instant of the
    click, and after that one every 1000 ms, for as long as nothing but
    time passes.  A start click while the running flag is true changes
    nothing. *)
Theorem start_click (d : document) (evs : list event) :
  let w := run evs (initialized d) in
  (isRunning w = false ->
   videoFeed_src (step w ClickStart) = VIDEO_FEED_URL
   /\ isRunning (step w ClickStart) = true
   /\ polling (step w ClickStart) = true
   /\ requests (step w ClickStart)
      = (requests w ++ [(STATUS_URL, clock w)])%list
   /\ (forall q r,
         r < 1000 ->
         status_fetches (advance (1000 * q + r) (step w ClickStart))
         = (status_fetches w
            ++ map (fun k => clock w + 1000 * k) (seq 0 (S q)))%list))
  /\ (isRunning w = true -> step w ClickStart = w).
Proof.
  intros w. pose proof (wf_reachable d evs) as Hwf. fold w in Hwf.
  split; [| apply start_when_running].
  intros Hrun.
  pose proof (start_when_stopped w Hwf Hrun) as Hstart.
  repeat split; try (rewrite Hstart; reflexivity).
  intros q r Hr.
  rewrite (advance_periods q r _ (next_timer w) 1000);
    [| lia | assumption | rewrite Hstart; reflexivity].
  assert (Hsf : status_fetches (step w ClickStart)
                = (status_fetches w ++ [clock w])%list).
  { rewrite Hstart. unfold status_fetches. cbn [requests].
    rewrite filter_app, map_app. cbn. rewrite String.eqb_refl. reflexivity. }
  assert (Hck : clock (step w ClickStart) = clock w)
    by (rewrite Hstart; reflexivity).
  rewrite Hsf, Hck, <- app_assoc. f_equal.
  cbn [seq map app]. f_equal. lia.
Qed.

(** C10.  The running flag is true from the moment the script declares
    it, before [init] runs.  So a start click that comes after load and
    before any stop click finds the flag true and changes nothing:
    neither the video source, nor the timer, nor the flag. *)
Theorem start_before_stop_is_noop (d : document) (evs : list event) :
  existsb is_stop evs = false ->
  isRunning (on_load d) = true
  /\ isRunning (run evs (initialized d)) = true
  /\ step (run evs (initialized d)) ClickStart = run evs (initialized d).
Proof.
  intros Hev.
  assert (H : isRunning (run evs (initialized d)) = true).
  { apply running_run; [apply wf_initialized | reflexivity | exact Hev]. }
  repeat split; [exact H | apply start_when_running, H].
Qed.

(** ** Status updates *)

(** C2.  When the body of the status response is a valid status object,
    the resumed [updateStatus] completes normally; with [recording] true
    the label reads "Recording" and the indicator carries the class
    "recording" (and not "monitoring"); with [recording] false the label
    reads "Not Recording" and the indicator carries the class
    "monitoring" (and not "recording").  The two cases cover every
    boolean and their outcomes differ.  The status and motion lines show
    the strings of the body, and the head count shows the digits of the
    number when it is a safe integer. *)
Theorem updateStatus_recording_mapping
  (w : world) (code : nat) (data : json)
  (hc : Z) (rec : bool) (st ms : string) :
  is_StatusSnapshot data hc rec st ms ->
  let out := updateStatus_resume (Responded (mkResponse code (Some data))) w in
  fst out = Ok tt
  /\ (rec = true ->
      recordingStatus (snd out) = "Recording"
      /\ statusIndicator_className (snd out) = "status-indicator recording"
      /\ has_class "recording" (statusIndicator_className (snd out)) = true
      /\ has_class "monitoring" (statusIndicator_className (snd out)) = false)
  /\ (rec = false ->
      recordingStatus (snd out) = "Not Recording"
      /\ statusIndicator_className (snd out) = "status-indicator monitoring"
      /\ has_class "monitoring" (statusIndicator_className (snd out)) = true
      /\ has_class "recording" (statusIndicator_className (snd out)) = false)
  /\ (rec = true \/ rec = false)
  /\ (safe_integer hc = true -> headCount (snd out) = string_of_Z hc)
  /\ statusText (snd out) = st
  /\ motionStatus (snd out) = ms.
Proof.
  intros (kv & -> & Hhc & Hrec & Hst & Hms).
  unfold updateStatus_resume, try_catch, bind. cbn.
  rewrite Hhc, Hrec, Hst, Hms. cbn.
  destruct rec; cbn; repeat split; auto; discriminate.
Qed.

(** C4, as the script has it.  When the transfer fails or the body is
    not valid JSON (whatever the HTTP status), the resumed [updateStatus]
    completes normally and the world is what it was, with one more line
    on the console: the four status regions keep their values.  The
    script never looks at the HTTP status, so an error response whose
    body is valid JSON is rendered like any other response. *)
Theorem updateStatus_failure_keeps_display (o : fetch_outcome) (w : world) :
  no_parsed_body o = true ->
  (exists e,
     updateStatus_resume o w
     = (Ok tt, set_console (console w ++ [("Error fetching status:", Some e)]) w))
  /\ fst (updateStatus_resume o w) = Ok tt
  /\ status_display (snd (updateStatus_resume o w)) = status_display w.
Proof.
  intros H. destruct o as [| [code [v |]]]; try discriminate.
  - split; [eexists; reflexivity | split; reflexivity].
  - split; [eexists; reflexivity | split; reflexivity].
Qed.

(** ** The recordings list *)

(** C8.  When the transfer fails or the body is not valid JSON, the
    resumed [fetchRecordings] completes normally, logs the error, and
    leaves the list with a single child, the paragraph that reads
    "Error loading recordings."; no recording item is in it. *)
Theorem fetchRecordings_failure (o : fetch_outcome) (w : world) :
  no_parsed_body o = true ->
  (exists e,
     fetchRecordings_resume o w
     = (Ok tt,
        set_recordingsList [Markup "<p>Error loading recordings.</p>"]
          (set_console
             (console w ++ [("Error fetching recordings:", Some e)]) w)))
  /\ fst (fetchRecordings_resume o w) = Ok tt
  /\ map node_text (recordingsList (snd (fetchRecordings_resume o w)))
     = ["Error loading recordings."]
  /\ filter is_item (recordingsList (snd (fetchRecordings_resume o w))) = [].
Proof.
  intros H. destruct o as [| [code [v |]]]; try discriminate.
  - split; [eexists; reflexivity | repeat split].
  - split; [eexists; reflexivity | repeat split].
Qed.

(** C9.  When the body parses to the empty array, the resumed
    [fetchRecordings] leaves the list with a single child, the paragraph
    that reads "No recordings found.", and appends no recording item;
    nothing else changes. *)
Theorem fetchRecordings_empty (code : nat) (w : world) :
  let out :=
    fetchRecordings_resume (Responded (mkResponse code (Some (JArr [])))) w in
  out = (Ok tt, set_recordingsList [Markup "<p>No recordings found.</p>"] w)
  /\ map node_text (recordingsList (snd out)) = ["No recordings found."]
  /\ filter is_item (recordingsList (snd out)) = [].
Proof. repeat split. Qed.

(** C6.  The script declares no [OUTPUT_FOLDER]; the identifier is read
    while the markup of an entry is built.  When the page binds it
    nowhere, building the entry of any file name throws a reference
    error before anything is written, so for every non-empty array the
    loop stops at its first element, no item is appended, and the
    exception ends in the [catch] branch of [fetchRecordings], which
    shows the error message. *)
Theorem OUTPUT_FOLDER_unbound :
  OUTPUT_FOLDER = None ->
  (forall recording w, exists e, render_recording recording w = (Throw e, w))
  /\ (forall s w,
        render_recording (JStr s) w = (Throw (ReferenceError "OUTPUT_FOLDER"), w))
  /\ (forall code x l w, exists e,
        fetchRecordings_resume
          (Responded (mkResponse code (Some (JArr (x :: l))))) w
        = (Ok tt,
           set_recordingsList [Markup "<p>Error loading recordings.</p>"]
             (set_console
                (console w ++ [("Error fetching recordings:", Some e)]) w)))
  /\ (forall code s l w,
        fetchRecordings_resume
          (Responded (mkResponse code (Some (JArr (JStr s :: l))))) w
        = (Ok tt,
           set_recordingsList [Markup "<p>Error loading recordings.</p>"]
             (set_console
                (console w
                 ++ [("Error fetching recordings:",
                      Some (ReferenceError "OUTPUT_FOLDER"))]) w))).
Proof.
  intros Hnone.
  assert (Hstr : forall s w,
    render_recording (JStr s) w = (Throw (ReferenceError "OUTPUT_FOLDER"), w)).
  { intros s w. unfold render_recording, read_OUTPUT_FOLDER, bind.
    rewrite Hnone. reflexivity. }
  assert (Hall : forall recording w,
    exists e, render_recording recording w = (Throw e, w)).
  { intros recording w. destruct recording;
      try (eexists; reflexivity).
    eexists. apply Hstr. }
  split; [exact Hall |]. split; [exact Hstr |]. split.
  - intros code x l w.
    destruct (Hall x (set_recordingsList [] w)) as [e He].
    exists e. unfold fetchRecordings_resume, try_catch, bind. cbn.
    unfold bind. rewrite He. reflexivity.
  - intros code s l w.
    unfold fetchRecordings_resume, try_catch, bind. cbn.
    unfold bind. rewrite Hstr. reflexivity.
Qed.

(** ** File names and entry titles *)

Lemma append_assoc (a b c : string) : (a ++ b) ++ c = a ++ (b ++ c).
Proof. induction a as [| x a IH]; cbn; [reflexivity | now rewrite IH]. Qed.

Lemma append_length (a b : string) :
  String.length (a ++ b) = String.length a + String.length b.
Proof. induction a as [| x a IH]; cbn; [reflexivity | now rewrite IH]. Qed.

Lemma match_atoms_lits (l s : string) :
  match_atoms (lits l) (l ++ s) = Some (l, s).
Proof.
  induction l as [| c l IH]; cbn.
  - reflexivity.
  - rewrite Ascii.eqb_refl. unfold lits in IH. rewrite IH. reflexivity.
Qed.

Lemma match_atoms_lits_inv (l s m rest : string) :
  match_atoms (lits l) s = Some (m, rest) -> m = l /\ s = l ++ rest.
Proof.
  revert s m rest. induction l as [| c l IH]; intros s m rest; cbn.
  - intros [= <- <-]. auto.
  - destruct s as [| c' s]; [discriminate |].
    destruct (Ascii.eqb_spec c c') as [<- | _]; [| discriminate].
    fold (lits l).
    destruct (match_atoms (lits l) s) as [[m' r'] |] eqn:E; [| discriminate].
    intros [= <- <-]. destruct (IH _ _ _ E) as [-> ->]. auto.
Qed.

Lemma match_atoms_digits (n : nat) (m s : string) :
  String.length m = n -> all_digits m = true ->
  match_atoms (repeat Digit n) (m ++ s) = Some (m, s).
Proof.
  revert n. induction m as [| c m IH]; intros n Hlen Hdig; cbn in Hlen; subst n.
  - reflexivity.
  - unfold all_digits in Hdig. cbn in Hdig.
    apply andb_true_iff in Hdig as [Hc Hm].
    cbn. rewrite Hc, (IH _ eq_refl Hm). reflexivity.
Qed.

Lemma match_atoms_digits_inv (n : nat) (s m rest : string) :
  match_atoms (repeat Digit n) s = Some (m, rest) ->
  String.length m = n /\ all_digits m = true /\ s = m ++ rest.
Proof.
  revert s m rest. induction n as [| n IH]; intros s m rest; cbn.
  - intros [= <- <-]. auto.
  - destruct s as [| c s]; [discriminate |].
    destruct (is_digit c) eqn:Hc; [| discriminate].
    destruct (match_atoms (repeat Digit n) s) as [[m' r'] |] eqn:E;
      [| discriminate].
    intros [= <- <-]. destruct (IH _ _ _ E) as (Hl & Hd & ->).
    cbn. rewrite Hl. unfold all_digits in *. cbn. rewrite Hc, Hd. auto.
Qed.

(** The expression matches at the start of a string exactly when the
    string starts with a conforming name. *)
Lemma match_motion_re (d t post : string) :
  stamp d t ->
  match_items motion_re (motion_name d t ++ post)
  = Some (motion_name d t, [d; t], post).
Proof.
  intros (Hd & Hdd & Ht & Htd). unfold motion_re, motion_name.
  rewrite !append_assoc. cbn [match_items].
  rewrite match_atoms_lits, (match_atoms_digits 8 d _ Hd Hdd),
    match_atoms_lits, (match_atoms_digits 6 t _ Ht Htd), match_atoms_lits.
  reflexivity.
Qed.

Lemma match_motion_re_inv (s m rest : string) (gs : list string) :
  match_items motion_re s = Some (m, gs, rest) ->
  exists d t,
    stamp d t /\ s = motion_name d t ++ rest
    /\ m = motion_name d t /\ gs = [d; t].
Proof.
  unfold motion_re. cbn [match_items].
  destruct (match_atoms (lits "motion_") s) as [[m1 r1] |] eqn:E1;
    [| discriminate].
  destruct (match_atoms (repeat Digit 8) r1) as [[m2 r2] |] eqn:E2;
    [| discriminate].
  destruct (match_atoms (lits "_") r2) as [[m3 r3] |] eqn:E3;
    [| discriminate].
  destruct (match_atoms (repeat Digit 6) r3) as [[m4 r4] |] eqn:E4;
    [| discriminate].
  destruct (match_atoms (lits ".avi") r4) as [[m5 r5] |] eqn:E5;
    [| discriminate].
  intros [= <- <- <-].
  apply match_atoms_lits_inv in E1 as [-> ->].
  apply match_atoms_digits_inv in E2 as (Hd & Hdd & ->).
  apply match_atoms_lits_inv in E3 as [-> ->].
  apply match_atoms_digits_inv in E4 as (Ht & Htd & ->).
  apply match_atoms_lits_inv in E5 as [-> ->].
  exists m2, m4. unfold stamp, motion_name.
  rewrite !append_assoc. repeat split; auto.
Qed.

Lemma exec_here (r : regex) (s m rest : string) (gs : list string) :
  match_items r s = Some (m, gs, rest) -> exec r s = Some (m :: gs).
Proof. intros H. destruct s; cbn; rewrite H; reflexivity. Qed.

(** Positions at which nothing matches are skipped. *)
Lemma exec_skip (r : regex) (pre suf : string) :
  (forall p1 p2, pre = p1 ++ p2 -> p2 <> "" ->
                 match_items r (p2 ++ suf) = None) ->
  exec r (pre ++ suf) = exec r suf.
Proof.
  induction pre as [| c pre IH]; intros H.
  - reflexivity.
  - assert (H0 : match_items r (String c (pre ++ suf)) = None)
      by (apply (H "" (String c pre) eq_refl); discriminate).
    cbn. rewrite H0.
    apply IH. intros p1 p2 -> Hp2. apply (H (String c p1) p2); auto.
Qed.

Lemma exec_none (r : regex) (s : string) :
  (forall pre suf, s = pre ++ suf -> match_items r suf = None) ->
  exec r s = None.
Proof.
  induction s as [| c s IH]; intros H.
  - cbn. rewrite (H "" "" eq_refl). reflexivity.
  - cbn. rewrite (H "" (String c s) eq_refl).
    apply IH. intros pre suf ->. apply (H (String c pre) suf). reflexivity.
Qed.

Lemma exec_some (r : regex) (s : string) (x : list string) :
  exec r s = Some x ->
  exists pre suf m gs rest,
    s = pre ++ suf /\ match_items r suf = Some (m, gs, rest) /\ x = m :: gs.
Proof.
  induction s as [| c s IH]; cbn.
  - destruct (match_items r "") as [[[m gs] rest] |] eqn:E; [| discriminate].
    intros [= <-]. exists "", "", m, gs, rest. auto.
  - destruct (match_items r (String c s)) as [[[m gs] rest] |] eqn:E.
    + intros [= <-]. exists "", (String c s), m, gs, rest. auto.
    + intros H. destruct (IH H) as (pre & suf & m & gs & rest & -> & Hm & ->).
      exists (String c pre), suf, m, gs, rest. auto.
Qed.

Lemma exec_complete (r : regex) (pre suf m rest : string) (gs : list string) :
  match_items r suf = Some (m, gs, rest) ->
  exists x, exec r (pre ++ suf) = Some x.
Proof.
  intros H. induction pre as [| c pre IH].
  - exists (m :: gs). apply exec_here with rest, H.
  - cbn. destruct (match_items r (String c (pre ++ suf))) as [[[m' gs'] r'] |].
    + eauto.
    + exact IH.
Qed.

Lemma dateStr_of_stamp (f m d t : string) :
  stamp d t -> dateStr_of f (Some [m; d; t]) = formatted d t.
Proof.
  intros (Hd & _ & Ht & _). unfold dateStr_of, formatted, JS.substring.
  cbn [nth]. rewrite Hd, Ht. reflexivity.
Qed.

Ltac explode8 s H :=
  do 8 (destruct s as [| ? s]; [discriminate H |]);
  destruct s; [| discriminate H].

Ltac explode6 s H :=
  do 6 (destruct s as [| ? s]; [discriminate H |]);
  destruct s; [| discriminate H].

Lemma digit_plain (c : ascii) : is_digit c = true -> markup_special c = false.
Proof.
  destruct c as [[] [] [] [] [] [] [] []]; cbn; intros H;
    try reflexivity; discriminate H.
Qed.

(** A reformatted date holds digits, dashes, colons and one space. *)
Lemma formatted_plain d t : stamp d t -> markup_plain (formatted d t) = true.
Proof.
  intros (Hd & Hdd & Ht & Htd). explode8 d Hd. explode6 t Ht.
  unfold all_digits in Hdd, Htd. cbn in Hdd, Htd.
  repeat match goal with
         | H : _ && _ = true |- _ => apply andb_true_iff in H as [? ?]
         end.
  unfold formatted, markup_plain. cbn.
  repeat match goal with
         | H : is_digit ?c = true |- _ => rewrite (digit_plain c H); clear H
         end.
  reflexivity.
Qed.

Lemma starts_with_special p c s :
  markup_special c = false -> starts_with (String "<"%char p) (String c s) = false.
Proof.
  intros H. cbn [starts_with].
  destruct (Ascii.eqb_spec "<"%char c) as [<- | _];
    [discriminate H | reflexivity].
Qed.

(** Plain text is copied into the title element as it is. *)
Lemma title_content_plain (t tail : string) :
  markup_plain t = true -> starts_with "</div>" tail = true ->
  title_content 0 (t ++ tail) = Some t.
Proof.
  intros H Htail. induction t as [| c t IH].
  - destruct tail as [| c r]; [discriminate Htail |].
    cbn [append title_content]. rewrite Htail. reflexivity.
  - unfold markup_plain in H. cbn in H. apply andb_true_iff in H as [Hc Ht].
    apply negb_true_iff in Hc.
    cbn [append title_content].
    rewrite !(starts_with_special _ c _ Hc), Hc.
    rewrite (IH Ht). reflexivity.
Qed.

(** The title is the file name or a reformatted date. *)
Lemma entry_title_cases f :
  entry_title f = f \/ exists d t, stamp d t /\ entry_title f = formatted d t.
Proof.
  unfold entry_title. destruct (exec motion_re f) as [x |] eqn:E.
  - right. destruct (exec_some _ _ _ E) as (pre & suf & m & gs & rest & _ & Hm & ->).
    apply match_motion_re_inv in Hm as (d & t & Hst & _ & _ & ->).
    exists d, t. split; [exact Hst | apply dateStr_of_stamp, Hst].
  - left. reflexivity.
Qed.

(** C5, as the script has it.  The title the script computes for a file
    name is the two digit runs of the match (the leftmost one, the
    pattern being unanchored) set out as YYYY-MM-DD HH:MM:SS when the
    pattern matches, and the file name itself when it does not; the two
    examples of the claim come out as stated.  When the page binds the
    output folder, the entry is appended as a "recording-item" whose
    markup is the template with that title pasted, unescaped, into the
    title element.  So the title shown is the computed title whenever
    that holds no character the HTML parser treats specially, which is
    always so for a reformatted date and need not be so for a file name
    shown as it is. *)
Theorem entry_title_spec :
  let q := String (ascii_of_nat 34) "" in
  let n := String (ascii_of_nat 10) "" in
  let markup := fun title folder name : string =>
    n ++ "                    <div class=" ++ q ++ "title" ++ q ++ ">"
    ++ title ++ "</div>" ++ n
    ++ "                    <div class=" ++ q ++ "actions" ++ q ++ ">" ++ n
    ++ "                        <button class=" ++ q ++ "btn" ++ q
    ++ " onclick=" ++ q ++ "window.location.href='/" ++ folder ++ "/"
    ++ name ++ "'" ++ q ++ ">" ++ n
    ++ "                            <i class=" ++ q ++ "fas fa-download" ++ q
    ++ "></i> Download" ++ n
    ++ "                        </button>" ++ n
    ++ "                    </div>" ++ n
    ++ "                " in
  (forall f, matches_pattern f ->
     exists pre d t post,
       matches_at pre d t post f /\ entry_title f = formatted d t)
  /\ (forall pre d t post f,
        matches_at pre d t post f ->
        (forall pre' d' t' post',
           matches_at pre' d' t' post' f ->
           String.length pre <= String.length pre') ->
        entry_title f = formatted d t)
  /\ (forall d t, stamp d t -> entry_title (motion_name d t) = formatted d t)
  /\ (forall f, ~ matches_pattern f -> entry_title f = f)
  /\ entry_title "motion_20240115_143022.avi" = "2024-01-15 14:30:22"
  /\ entry_title "clip1.avi" = "clip1.avi"
  /\ (forall folder f w,
        OUTPUT_FOLDER = Some folder ->
        render_recording (JStr f) w
        = (Ok tt,
           set_recordingsList
             (recordingsList w
              ++ [Div "recording-item" (markup (entry_title f) folder f)])
             w))
  /\ (forall folder f,
        markup_plain (entry_title f) = true ->
        title_text (markup (entry_title f) folder f) = Some (entry_title f))
  /\ (forall folder f,
        matches_pattern f ->
        title_text (markup (entry_title f) folder f) = Some (entry_title f))
  /\ (forall folder f,
        ~ matches_pattern f -> markup_plain f = true ->
        title_text (markup (entry_title f) folder f) = Some f).
Proof.
  intros q n markup.
  assert (Hleft : forall pre d t post f,
    matches_at pre d t post f ->
    (forall pre' d' t' post',
       matches_at pre' d' t' post' f ->
       String.length pre <= String.length pre') ->
    entry_title f = formatted d t).
  { intros pre d t post f [-> Hst] Hmin. unfold entry_title.
    rewrite exec_skip.
    - rewrite (exec_here _ _ _ _ _ (match_motion_re d t post Hst)).
      apply dateStr_of_stamp, Hst.
    - intros p1 p2 -> Hp2.
      destruct (match_items motion_re (p2 ++ motion_name d t ++ post))
        as [[[m gs] rest] |] eqn:E; [| reflexivity].
      exfalso. apply match_motion_re_inv in E as (d' & t' & Hst' & E & _).
      assert (Hm : matches_at p1 d' t' rest
                     ((p1 ++ p2) ++ motion_name d t ++ post)).
      { split; [| exact Hst']. rewrite append_assoc, E. reflexivity. }
      apply Hmin in Hm. rewrite append_length in Hm.
      destruct p2; [congruence | cbn in Hm; lia]. }
  assert (Hmatch : forall f, matches_pattern f ->
    exists pre d t post,
      matches_at pre d t post f /\ entry_title f = formatted d t).
  { intros f (pre & d & t & post & -> & Hst).
    destruct (exec_complete motion_re pre _ _ _ _ (match_motion_re d t post Hst))
      as [x Hx].
    destruct (exec_some _ _ _ Hx) as (pre' & suf & m & gs & rest & E & Hm & ->).
    apply match_motion_re_inv in Hm as (d' & t' & Hst' & -> & -> & ->).
    exists pre', d', t', rest. split; [split; assumption |].
    unfold entry_title. rewrite Hx. apply dateStr_of_stamp, Hst'. }
  assert (Hnone : forall f, ~ matches_pattern f -> entry_title f = f).
  { intros f Hno. unfold entry_title. rewrite exec_none; [reflexivity |].
    intros pre suf ->.
    destruct (match_items motion_re suf) as [[[m gs] rest] |] eqn:E;
      [| reflexivity].
    exfalso. apply Hno.
    apply match_motion_re_inv in E as (d & t & Hst & -> & _).
    exists pre, d, t, rest. split; auto. }
  assert (Hshown : forall folder f,
    markup_plain (entry_title f) = true ->
    title_text (markup (entry_title f) folder f) = Some (entry_title f)).
  { intros folder f Hp. unfold title_text, markup, q, n, dq. cbn.
    apply title_content_plain; [exact Hp | reflexivity]. }
  split; [exact Hmatch |]. split; [exact Hleft |].
  split; [| split; [exact Hnone |]].
  - intros d t Hst. apply (Hleft "" d t "").
    + split; [| exact Hst]. cbn [append].
      induction (motion_name d t) as [| c s IH]; cbn; congruence.
    + intros. cbn. lia.
  - split; [reflexivity |]. split; [reflexivity |].
    split; [| split; [exact Hshown | split]].
    + intros folder f w Hf. unfold render_recording, read_OUTPUT_FOLDER, bind.
      rewrite Hf. cbn. unfold recordingsList_appendChild, modify.
      do 5 f_equal.
      unfold item_markup, title_markup, markup, q, n, nl, dq. cbn.
      rewrite !append_assoc. reflexivity.
    + intros folder f Hm. apply Hshown.
      destruct (Hmatch f Hm) as (pre & d & t & post & [_ Hst] & ->).
      apply formatted_plain, Hst.
    + intros folder f Hno Hp. rewrite (Hnone f Hno) in *.
      pose proof (Hshown folder f) as H. rewrite (Hnone f Hno) in H.
      apply H, Hp.
Qed.

(** ** Further properties: the polling schedule *)

Lemma STATUS_URL_not_RECORDINGS_URL :
  String.eqb STATUS_URL RECORDINGS_URL = false.
Proof. unfold RECORDINGS_URL, STATUS_URL. rewrite append_eqb_l. reflexivity. Qed.

(** What one event adds to the request log of a well-formed world. *)
Lemma step_requests w e :
  wf w ->
  (e = ClickRefresh
   /\ requests (step w e) = (requests w ++ [(RECORDINGS_URL, clock w)])%list
   /\ clock (step w e) = clock w)
  \/ (e <> ClickRefresh
      /\ clock (step w e) = (if is_tick e then S (clock w) else clock w)
      /\ (requests (step w e) = requests w
          \/ requests (step w e)
             = (requests w ++ [(STATUS_URL, clock (step w e))])%list)).
Proof.
  intros Hwf. destruct e.
  - right. split; [discriminate |].
    destruct (isRunning w) eqn:Hrun.
    + rewrite start_when_running by assumption. auto.
    + rewrite start_when_stopped by assumption. cbn. auto.
  - right. split; [discriminate |].
    destruct (isRunning w) eqn:Hrun.
    + rewrite stop_when_running by assumption. cbn. auto.
    + rewrite stop_when_stopped by assumption. auto.
  - left. destruct w; cbn. auto.
  - right. split; [discriminate |]. destruct w; cbn. auto.
  - right. split; [discriminate |]. cbn [step is_tick].
    unfold wf in Hwf. destruct Hwf as [_ Hwf].
    destruct (isRunning w).
    + destruct Hwf as (id & due & _ & _ & Htm & _).
      destruct (Nat.eq_dec (S (clock w)) due) as [<- | Hne].
      * unfold tick. rewrite Htm. cbn. unfold reschedule. cbn.
        rewrite Nat.eqb_refl. cbn. unfold fire. cbn.
        rewrite Nat.eqb_refl. cbn. destruct w; cbn. auto.
      * unfold tick. rewrite Htm. cbn. unfold reschedule. cbn.
        destruct (Nat.eqb_spec due (S (clock w))); [congruence |].
        cbn. destruct w; cbn. auto.
    + destruct Hwf as (_ & Htm & _). unfold tick. rewrite Htm. cbn.
      destruct w; cbn. auto.
  - right. split; [discriminate |]. cbn [step is_tick].
    pose proof (deliver_control rid o w) as H. unfold control in H.
    injection H as _ _ _ -> _ _ ->. auto.
Qed.

Lemma requests_initialized d :
  requests (initialized d) = [(STATUS_URL, 0); (RECORDINGS_URL, 0)].
Proof. reflexivity. Qed.

Lemma recordings_fetches_step w e :
  wf w ->
  List.length (recordings_fetches (step w e))
  = List.length (recordings_fetches w) + (if is_refresh e then 1 else 0).
Proof.
  intros Hwf. unfold recordings_fetches.
  destruct (step_requests w e Hwf)
    as [(-> & -> & _) | (Hne & _ & [-> | ->])].
  - rewrite filter_app, map_app, length_app. cbn.
    rewrite String.eqb_refl. reflexivity.
  - destruct e; try congruence; cbn; lia.
  - rewrite filter_app, map_app, length_app. cbn.
    rewrite STATUS_URL_not_RECORDINGS_URL. cbn.
    destruct e; try congruence; cbn; lia.
Qed.

Lemma recordings_fetches_run evs : forall w,
  wf w ->
  List.length (recordings_fetches (run evs w))
  = List.length (recordings_fetches w) + refreshes evs.
Proof.
  induction evs as [| e evs IH]; intros w Hwf; cbn.
  - unfold refreshes. cbn. lia.
  - rewrite IH by apply wf_step, Hwf.
    rewrite recordings_fetches_step by assumption.
    unfold refreshes. cbn. destruct (is_refresh e); cbn; lia.
Qed.

(** X2.  The recordings are requested once when the page loads and once
    more for each refresh click; no timer, start click, stop click or
    response ever asks for them. *)
Theorem recordings_fetched_on_load_and_refresh (d : document) (evs : list event) :
  List.length (recordings_fetches (run evs (initialized d)))
  = S (refreshes evs).
Proof.
  rewrite recordings_fetches_run by apply wf_initialized.
  unfold recordings_fetches. rewrite requests_initialized. cbn [filter fst].
  rewrite STATUS_URL_not_RECORDINGS_URL, String.eqb_refl. reflexivity.
Qed.

(** The schedule while nothing stops the polling: the timer is due at
    the next multiple of 1000 and one request has gone out at every
    multiple so far. *)
Lemma schedule_step w e k :
  wf w -> isRunning w = true -> is_stop e = false ->
  (exists id, timers w = [mkTimer id CB_updateStatus 1000 (1000 * S k)]) ->
  1000 * k <= clock w < 1000 * S k ->
  status_fetches w = map (fun j => 1000 * j) (seq 0 (S k)) ->
  exists k',
    (exists id, timers (step w e)
                = [mkTimer id CB_updateStatus 1000 (1000 * S k')])
    /\ 1000 * k' <= clock (step w e) < 1000 * S k'
    /\ status_fetches (step w e) = map (fun j => 1000 * j) (seq 0 (S k'))
    /\ clock (step w e) = (if is_tick e then S (clock w) else clock w).
Proof.
  intros Hwf Hrun He [id Htm] Hck Hsf. destruct e; try discriminate.
  - rewrite start_when_running by assumption. exists k. eauto.
  - exists k. unfold status_fetches in *. destruct w; cbn in *.
    rewrite filter_app, map_app. cbn.
    rewrite RECORDINGS_URL_not_STATUS_URL. cbn. rewrite app_nil_r. eauto.
  - exists k. destruct w; cbn in *. eauto.
  - cbn [step is_tick].
    destruct (Nat.eq_dec (S (clock w)) (1000 * S k)) as [E | Hne].
    + rewrite <- E in Htm.
      destruct (tick_due w id 1000 Htm) as (Ht & Hc & Hs).
      exists (S k). rewrite Ht, Hc, Hs, Hsf. repeat split.
      * exists id. do 2 f_equal. lia.
      * lia.
      * lia.
      * rewrite (seq_S (S k) 0), map_app. cbn [map Nat.add]. rewrite E.
        reflexivity.
    + destruct (tick_idle w id 1000 _ Htm Hne) as (Ht & Hc & Hs).
      exists k. rewrite Ht, Hc, Hs. repeat split; eauto; lia.
  - cbn [step is_tick].
    pose proof (deliver_control rid o w) as H. unfold control in H.
    exists k. unfold status_fetches in *.
    injection H as _ _ _ -> -> _ ->. eauto.
Qed.

Lemma schedule_run evs : forall w k,
  wf w -> isRunning w = true -> existsb is_stop evs = false ->
  (exists id, timers w = [mkTimer id CB_updateStatus 1000 (1000 * S k)]) ->
  1000 * k <= clock w < 1000 * S k ->
  status_fetches w = map (fun j => 1000 * j) (seq 0 (S k)) ->
  exists k',
    1000 * k' <= clock (run evs w) < 1000 * S k'
    /\ status_fetches (run evs w) = map (fun j => 1000 * j) (seq 0 (S k'))
    /\ clock (run evs w) = clock w + elapsed evs.
Proof.
  induction evs as [| e evs IH]; intros w k Hwf Hrun Hev Htm Hck Hsf.
  - exists k. unfold elapsed. cbn [run fold_left filter List.length].
    rewrite Nat.add_0_r. auto.
  - cbn in Hev. apply orb_false_iff in Hev as [He Hev].
    destruct (schedule_step w e k Hwf Hrun He Htm Hck Hsf)
      as (k1 & Htm1 & Hck1 & Hsf1 & Hc1).
    destruct (IH (step w e) k1) as (k' & Hck' & Hsf' & Hc');
      auto using wf_step, running_step.
    exists k'. cbn [run fold_left]. fold (run evs (step w e)).
    split; [exact Hck' |]. split; [exact Hsf' |].
    rewrite Hc', Hc1. unfold elapsed. cbn [filter].
    destruct (is_tick e); cbn [List.length]; lia.
Qed.

(** X3.  The polling cadence.  As long as no stop click comes, whatever
    else happens (responses that arrive late or never, refresh clicks,
    video errors, further start clicks), a status request has gone out
    at load and at every full 1000 ms since, and at no other time: the
    schedule follows the clock alone. *)
Theorem polling_cadence (d : document) (evs : list event) :
  existsb is_stop evs = false ->
  clock (run evs (initialized d)) = elapsed evs
  /\ status_fetches (run evs (initialized d))
     = map (fun j => 1000 * j) (seq 0 (S (elapsed evs / 1000))).
Proof.
  intros Hev.
  destruct (schedule_run evs (initialized d) 0) as (k & Hck & Hsf & Hc).
  - apply wf_initialized.
  - reflexivity.
  - exact Hev.
  - exists 1. reflexivity.
  - cbn [clock initialized]. change (clock (initialized d)) with 0. lia.
  - unfold status_fetches. rewrite requests_initialized. cbn [filter fst].
    rewrite String.eqb_refl, RECORDINGS_URL_not_STATUS_URL. reflexivity.
  - change (clock (initialized d)) with 0 in Hc. cbn [Nat.add] in Hc.
    split; [exact Hc |].
    rewrite Hsf. do 3 f_equal.
    apply (Nat.div_unique _ 1000 k (elapsed evs - 1000 * k)); lia.
Qed.

(** ** Further properties: the timer *)

(** X4.  There is never more than one timer.  In every reachable world
    the host holds at most one interval; if it holds one, it is the one
    [statusInterval] names, it calls [updateStatus] every 1000 ms, its
    handle is a positive number already handed out, and it is due
    within the next 1000 ms. *)
Theorem single_polling_timer (d : document) (evs : list event) :
  let w := run evs (initialized d) in
  List.length (timers w) <= 1
  /\ (forall t, In t (timers w) ->
        statusInterval w = Some (t_id t)
        /\ t_callback t = CB_updateStatus /\ t_delay t = 1000
        /\ 1 <= t_id t < next_timer w
        /\ clock w < t_due t <= clock w + 1000).
Proof.
  intros w. destruct (wf_reachable d evs) as [_ H]. fold w in H.
  destruct (isRunning w).
  - destruct H as (id & due & -> & Hid & -> & Hlt & Hle & _).
    split; [cbn; lia |].
    intros t [<- | []]. cbn. repeat split; lia.
  - destruct H as (_ & -> & _). split; [cbn; lia | intros t []].
Qed.

(** X5.  [startStatusUpdates] restarts the polling from any reachable
    world, running or not: the timer that was there (if any) is
    cancelled, one status request goes out at once, and exactly one
    fresh timer is registered, due 1000 ms later; the DOM and the
    running flag are not touched. *)
Theorem startStatusUpdates_restarts (d : document) (evs : list event) :
  let w := run evs (initialized d) in
  startStatusUpdates w
  = (Ok tt,
     mkWorld (videoFeed_src w) (statusIndicator_className w) (statusText w)
       (headCount w) (recordingStatus w) (motionStatus w) (recordingsList w)
       (isRunning w) (Some (next_timer w)) (clock w)
       [mkTimer (next_timer w) CB_updateStatus 1000 (clock w + 1000)]
       (S (next_timer w)) (pending w ++ [(next_request w, K_updateStatus)])
       (S (next_request w)) (requests w ++ [(STATUS_URL, clock w)])
       (console w)).
Proof.
  intros w. destruct (wf_reachable d evs) as [_ H]. fold w in H.
  destruct w as [src cls st hc rs ms rl rn si clk tm nt pd nr rq co].
  cbn in H. destruct rn.
  - destruct H as (id & due & -> & _ & -> & _).
    unfold startStatusUpdates, bind. cbn. rewrite Nat.eqb_refl. reflexivity.
  - destruct H as (-> & -> & _). reflexivity.
Qed.

(** X6.  [stopStatusUpdates] leaves any reachable world without a timer
    and with [statusInterval] null, changes nothing else, and is safe to
    call again: the second call changes nothing. *)
Theorem stopStatusUpdates_idempotent (d : document) (evs : list event) :
  let w := run evs (initialized d) in
  let w' := set_statusInterval None (set_timers [] w) in
  stopStatusUpdates w = (Ok tt, w')
  /\ stopStatusUpdates w' = (Ok tt, w').
Proof.
  intros w. destruct (wf_reachable d evs) as [_ H]. fold w in H.
  destruct w as [src cls st hc rs ms rl rn si clk tm nt pd nr rq co].
  cbn in H. destruct rn.
  - destruct H as (id & due & -> & _ & -> & _).
    unfold stopStatusUpdates, bind. cbn. rewrite Nat.eqb_refl. auto.
  - destruct H as (-> & -> & _). auto.
Qed.

(** ** Further properties: nothing escapes *)

Lemma try_catch_ok (m : M unit) (h : exn -> M unit) (w : world) :
  (forall e w', fst (h e w') = Ok tt) -> fst (try_catch m h w) = Ok tt.
Proof.
  intros H. unfold try_catch. destruct (m w) as [[[] | e] w'].
  - reflexivity.
  - apply H.
Qed.

Lemma bind_ok {A} (m : M A) (k : A -> M unit) :
  (forall w, exists a, fst (m w) = Ok a) ->
  (forall a w, fst (k a w) = Ok tt) ->
  forall w, fst (bind m k w) = Ok tt.
Proof.
  intros Hm Hk w. unfold bind. destruct (Hm w) as [a Ha].
  destruct (m w) as [[a' | e] w']; cbn in Ha; [apply Hk | discriminate].
Qed.

Lemma startStatusUpdates_ok w : exists a, fst (startStatusUpdates w) = Ok a.
Proof.
  exists tt. unfold startStatusUpdates, bind. cbn.
  destruct (handle_truthy (statusInterval w)); reflexivity.
Qed.

Lemma stopStatusUpdates_ok w : exists a, fst (stopStatusUpdates w) = Ok a.
Proof.
  exists tt. unfold stopStatusUpdates, bind. cbn.
  destruct (handle_truthy (statusInterval w)); reflexivity.
Qed.

(** X7.  No task of the script lets an exception escape.  Whatever the
    world and whatever a request settles to, [init], the four event
    handlers, the timer callback and both resumed fetch functions
    complete normally; the exceptions raised inside the two fetch
    functions all end in their [catch] branches. *)
Theorem no_task_throws (w : world) :
  fst (init w) = Ok tt
  /\ fst (onStartClick w) = Ok tt
  /\ fst (onStopClick w) = Ok tt
  /\ fst (onRefreshClick w) = Ok tt
  /\ fst (onVideoError w) = Ok tt
  /\ (forall cb, fst (run_callback cb w) = Ok tt)
  /\ (forall k o, fst (resume k o w) = Ok tt).
Proof.
  repeat split.
  - unfold init. apply bind_ok; [intros; eexists; reflexivity |].
    intros _. apply bind_ok; [apply startStatusUpdates_ok | reflexivity].
  - unfold onStartClick. apply bind_ok; [intros; eexists; reflexivity |].
    intros [] w'; [reflexivity |]. cbn [negb when].
    revert w'. apply bind_ok; [intros; eexists; reflexivity |].
    intros _. apply bind_ok; [apply startStatusUpdates_ok | reflexivity].
  - unfold onStopClick. apply bind_ok; [intros; eexists; reflexivity |].
    intros [] w'; [| reflexivity]. cbn [when].
    revert w'. apply bind_ok; [intros; eexists; reflexivity |].
    intros _. apply bind_ok; [apply stopStatusUpdates_ok | reflexivity].
  - intros []. reflexivity.
  - intros [] o; apply try_catch_ok; reflexivity.
Qed.

(** ** Further properties: status responses *)

Lemma field_inr data name :
  data <> JNull -> get_prop data name = inr (field data name).
Proof.
  intros Hnn. unfold field. destruct data; try congruence; reflexivity.
Qed.

(** The resumed [updateStatus] on a body that is not [null], one
    conversion at a time. *)
Lemma updateStatus_resume_body code data w h s m :
  data <> JNull ->
  to_text (field data "headCount") = inr h ->
  to_text (field data "status") = inr s ->
  to_text (field data "motionStatus") = inr m ->
  updateStatus_resume (Responded (mkResponse code (Some data))) w
  = (Ok tt,
     set_motionStatus m
       (set_statusText s
          (set_statusIndicator_className
             (if truthy (field data "recording")
              then "status-indicator recording"
              else "status-indicator monitoring")
             (set_recordingStatus
                (if truthy (field data "recording")
                 then "Recording" else "Not Recording")
                (set_headCount h w))))).
Proof.
  intros Hnn Hh Hs Hm.
  unfold updateStatus_resume, try_catch, bind. cbn [await_fetch response_json body ret].
  rewrite !(field_inr data _ Hnn). cbn [lift ret]. rewrite Hh. cbn [lift ret modify].
  destruct (truthy (field data "recording")); cbn [modify];
    rewrite Hs; cbn [lift ret modify]; rewrite Hm; reflexivity.
Qed.

Lemma updateStatus_resume_headCount_throws code data w e :
  data <> JNull ->
  to_text (field data "headCount") = inl e ->
  updateStatus_resume (Responded (mkResponse code (Some data))) w
  = (Ok tt,
     set_console (console w ++ [("Error fetching status:", Some e)]) w).
Proof.
  intros Hnn Hh.
  unfold updateStatus_resume, try_catch, bind. cbn [await_fetch response_json body ret].
  rewrite !(field_inr data _ Hnn). cbn [lift ret]. rewrite Hh. reflexivity.
Qed.

Lemma updateStatus_resume_status_throws code data w h e :
  data <> JNull ->
  to_text (field data "headCount") = inr h ->
  to_text (field data "status") = inl e ->
  fst (updateStatus_resume (Responded (mkResponse code (Some data))) w) = Ok tt
  /\ status_display
       (snd (updateStatus_resume (Responded (mkResponse code (Some data))) w))
     = (h,
        (if truthy (field data "recording")
         then ("Recording", "status-indicator recording")
         else ("Not Recording", "status-indicator monitoring")),
        statusText w, motionStatus w).
Proof.
  intros Hnn Hh Hs.
  unfold updateStatus_resume, try_catch, bind. cbn [await_fetch response_json body ret].
  rewrite !(field_inr data _ Hnn). cbn [lift ret]. rewrite Hh. cbn [lift ret modify].
  destruct (truthy (field data "recording")); cbn [modify];
    rewrite Hs; split; reflexivity.
Qed.

Lemma updateStatus_resume_motion_throws code data w h s e :
  data <> JNull ->
  to_text (field data "headCount") = inr h ->
  to_text (field data "status") = inr s ->
  to_text (field data "motionStatus") = inl e ->
  fst (updateStatus_resume (Responded (mkResponse code (Some data))) w) = Ok tt
  /\ status_display
       (snd (updateStatus_resume (Responded (mkResponse code (Some data))) w))
     = (h,
        (if truthy (field data "recording")
         then ("Recording", "status-indicator recording")
         else ("Not Recording", "status-indicator monitoring")),
        s, motionStatus w).
Proof.
  intros Hnn Hh Hs Hm.
  unfold updateStatus_resume, try_catch, bind. cbn [await_fetch response_json body ret].
  rewrite !(field_inr data _ Hnn). cbn [lift ret]. rewrite Hh. cbn [lift ret modify].
  destruct (truthy (field data "recording")); cbn [modify];
    rewrite Hs; cbn [lift ret modify]; rewrite Hm; split; reflexivity.
Qed.

(** X8.  What a status response does to the display, for every body
    that parses and whose numbers are safe integers.  A [null] body
    raises a type error at the first property read, which is caught and
    logged before anything is written.  For any other body the four
    regions are written in order, each from the text of its own
    property (a missing property gives the empty text, [recording] is
    tested for truthiness).  When all three conversions to text succeed
    the whole display is replaced and nothing of the previous one
    survives.  When a conversion throws (an object with an own
    [toString] property), the error is caught and logged: the regions
    written before it show the new values and the others keep the
    previous ones. *)
Theorem updateStatus_any_body (code : nat) (data : json) (w : world) :
  (data = JNull ->
   updateStatus_resume (Responded (mkResponse code (Some data))) w
   = (Ok tt,
      set_console
        (console w
         ++ [("Error fetching status:",
              Some (TypeError
                      "Cannot read properties of null (reading 'headCount')"))])
        w))
  /\ (data <> JNull -> numbers_exact data = true ->
      forall h s m,
        to_text (field data "headCount") = inr h ->
        to_text (field data "status") = inr s ->
        to_text (field data "motionStatus") = inr m ->
        status_display
          (snd (updateStatus_resume
                  (Responded (mkResponse code (Some data))) w))
        = (h,
           (if truthy (field data "recording")
            then ("Recording", "status-indicator recording")
            else ("Not Recording", "status-indicator monitoring")),
           s, m)
        /\ forall w2,
             status_display
               (snd (updateStatus_resume
                       (Responded (mkResponse code (Some data))) w))
             = status_display
                 (snd (updateStatus_resume
                         (Responded (mkResponse code (Some data))) w2)))
  /\ (data <> JNull ->
      forall e,
        to_text (field data "headCount") = inl e ->
        updateStatus_resume (Responded (mkResponse code (Some data))) w
        = (Ok tt,
           set_console (console w ++ [("Error fetching status:", Some e)]) w))
  /\ (data <> JNull -> numbers_exact data = true ->
      forall h e,
        to_text (field data "headCount") = inr h ->
        to_text (field data "status") = inl e ->
        status_display
          (snd (updateStatus_resume
                  (Responded (mkResponse code (Some data))) w))
        = (h,
           (if truthy (field data "recording")
            then ("Recording", "status-indicator recording")
            else ("Not Recording", "status-indicator monitoring")),
           statusText w, motionStatus w))
  /\ (data <> JNull -> numbers_exact data = true ->
      forall h s e,
        to_text (field data "headCount") = inr h ->
        to_text (field data "status") = inr s ->
        to_text (field data "motionStatus") = inl e ->
        status_display
          (snd (updateStatus_resume
                  (Responded (mkResponse code (Some data))) w))
        = (h,
           (if truthy (field data "recording")
            then ("Recording", "status-indicator recording")
            else ("Not Recording", "status-indicator monitoring")),
           s, motionStatus w)).
Proof.
  split; [intros ->; reflexivity |].
  split; [| split; [| split]].
  - intros Hnn _ h s m Hh Hs Hm. split.
    + rewrite (updateStatus_resume_body code data w h s m) by assumption.
      unfold status_display. cbn.
      destruct (truthy (field data "recording")); reflexivity.
    + intros w2.
      rewrite (updateStatus_resume_body code data w h s m),
        (updateStatus_resume_body code data w2 h s m) by assumption.
      reflexivity.
  - intros Hnn e He. apply updateStatus_resume_headCount_throws; assumption.
  - intros Hnn _ h e Hh Hs.
    apply (updateStatus_resume_status_throws code data w h e); assumption.
  - intros Hnn _ h s e Hh Hs Hm.
    apply (updateStatus_resume_motion_throws code data w h s e); assumption.
Qed.

(** X9.  A response that arrives late repaints a stopped dashboard.
    When a status request is still pending at the moment of a stop
    click and settles afterwards with a body that is not [null], whose
    numbers are safe integers and whose three text properties convert
    to text, these values replace the five "stopped" values on the
    display, although the running flag stays false, the video source
    stays blank and no timer is running. *)
Theorem late_response_repaints
  (d : document) (evs : list event) (rid n code : nat) (data : json)
  (h s m : string) :
  let w := run evs (initialized d) in
  isRunning w = true ->
  find (fun p => Nat.eqb (fst p) rid) (pending w) = Some (n, K_updateStatus) ->
  data <> JNull -> numbers_exact data = true ->
  to_text (field data "headCount") = inr h ->
  to_text (field data "status") = inr s ->
  to_text (field data "motionStatus") = inr m ->
  let w' :=
    run [ClickStop; Deliver rid (Responded (mkResponse code (Some data)))] w in
  isRunning w' = false /\ timers w' = [] /\ videoFeed_src w' = ""
  /\ status_display w'
     = (h,
        (if truthy (field data "recording")
         then ("Recording", "status-indicator recording")
         else ("Not Recording", "status-indicator monitoring")),
        s, m).
Proof.
  intros w Hrun Hfind Hnn _ Hh Hs Hm. cbn [run fold_left].
  rewrite stop_when_running by (apply wf_reachable || assumption).
  cbn [step]. unfold deliver. cbn [pending]. fold w. rewrite Hfind.
  unfold dispatch, resume.
  rewrite (updateStatus_resume_body code data _ h s m) by assumption.
  unfold status_display. cbn.
  destruct (truthy (field data "recording")); auto.
Qed.


(** ** Further properties: rebuilding the recordings list *)

Lemma set_recordingsList_twice a b w :
  set_recordingsList a (set_recordingsList b w) = set_recordingsList a w.
Proof. reflexivity. Qed.

Lemma set_recordingsList_same w :
  set_recordingsList (recordingsList w ++ []) w = w.
Proof. rewrite app_nil_r. destruct w; reflexivity. Qed.

Lemma render_recording_bound folder f w :
  OUTPUT_FOLDER = Some folder ->
  render_recording (JStr f) w
  = (Ok tt, set_recordingsList (recordingsList w ++ [item_of folder f]) w).
Proof.
  intros H. unfold render_recording, read_OUTPUT_FOLDER, bind.
  rewrite H. reflexivity.
Qed.

Lemma render_recording_throws recording w :
  (forall f, recording <> JStr f) \/ OUTPUT_FOLDER = None ->
  exists e, render_recording recording w = (Throw e, w).
Proof.
  intros H. destruct recording; try (eexists; reflexivity).
  destruct H as [H | H]; [exfalso; eapply H; reflexivity |].
  unfold render_recording, read_OUTPUT_FOLDER, bind. rewrite H.
  eexists; reflexivity.
Qed.

(** The loop over an array either renders every element, all of them
    file names, or stops at the first element it cannot render. *)
Lemma forEach_render_outcome l :
  (exists names,
     l = map JStr names
     /\ (names = [] \/ exists folder, OUTPUT_FOLDER = Some folder)
     /\ forall w,
          forEach l render_recording w
          = (Ok tt,
             set_recordingsList
               (recordingsList w
                ++ match OUTPUT_FOLDER with
                   | Some folder => map (item_of folder) names
                   | None => []
                   end) w))
  \/ (forall w, exists e items,
        forEach l render_recording w
        = (Throw e, set_recordingsList (recordingsList w ++ items) w)).
Proof.
  induction l as [| x l IH].
  - left. exists []. split; [reflexivity |]. split; [auto |].
    intros w. cbn. unfold ret.
    destruct OUTPUT_FOLDER; cbn; rewrite set_recordingsList_same; reflexivity.
  - assert (Hthrow : (forall f, x <> JStr f) \/ OUTPUT_FOLDER = None ->
      forall w, exists e items,
        forEach (x :: l) render_recording w
        = (Throw e, set_recordingsList (recordingsList w ++ items) w)).
    { intros H w. destruct (render_recording_throws x w H) as [e He].
      exists e, []. cbn. unfold bind. rewrite He, set_recordingsList_same.
      reflexivity. }
    destruct x as [| b | n | f | a | kv];
      try (right; apply Hthrow; left; intros; discriminate).
    destruct OUTPUT_FOLDER as [folder |] eqn:Hf;
      [| right; apply Hthrow; right; reflexivity].
    destruct IH as [(names & -> & _ & Hok) | Hbad].
    + left. exists (f :: names). split; [reflexivity |].
      split; [right; eauto |].
      intros w. cbn [forEach map]. unfold bind.
      rewrite (render_recording_bound folder f w Hf), Hok.
      cbn [recordingsList set_recordingsList].
      rewrite <- app_assoc. reflexivity.
    + right. intros w.
      destruct (Hbad (set_recordingsList (recordingsList w ++ [item_of folder f]) w))
        as (e & items & He).
      exists e, (item_of folder f :: items). cbn [forEach]. unfold bind.
      rewrite (render_recording_bound folder f w Hf), He.
      cbn [recordingsList set_recordingsList].
      rewrite <- app_assoc. reflexivity.
Qed.

Lemma forEach_render_strings folder names :
  OUTPUT_FOLDER = Some folder ->
  forall w,
    forEach (map JStr names) render_recording w
    = (Ok tt,
       set_recordingsList
         (recordingsList w ++ map (item_of folder) names) w).
Proof.
  intros Hf. induction names as [| a l IH]; intros w; cbn [map forEach].
  - unfold ret. rewrite set_recordingsList_same. reflexivity.
  - unfold bind. rewrite (render_recording_bound folder a w Hf), IH.
    cbn [recordingsList set_recordingsList]. rewrite <- app_assoc.
    reflexivity.
Qed.

Lemma fetchRecordings_resume_array code x l w :
  fetchRecordings_resume (Responded (mkResponse code (Some (JArr (x :: l))))) w
  = try_catch (forEach (x :: l) render_recording)
      (fun error =>
         console_error "Error fetching recordings:" (Some error) ;;
         set_recordingsList_innerHTML "<p>Error loading recordings.</p>")
      (set_recordingsList [] w).
Proof. reflexivity. Qed.

Lemma fetchRecordings_resume_non_array code v w :
  (forall l, v <> JArr l) ->
  recordingsList
    (snd (fetchRecordings_resume (Responded (mkResponse code (Some v))) w))
  = if strict_eq_zero (field v "length") then placeholder_list else error_list.
Proof.
  intros Hna. destruct v as [| b | n | s | l | kv].
  - reflexivity.
  - reflexivity.
  - reflexivity.
  - destruct s; reflexivity.
  - exfalso. eapply Hna. reflexivity.
  - unfold fetchRecordings_resume, try_catch, bind, field. cbn.
    destruct (strict_eq_zero (assoc "length" kv)); reflexivity.
Qed.

(** What the list shows after a response, as a function of the response
    alone. *)
Lemma fetchRecordings_list o :
  (forall w, recordingsList (snd (fetchRecordings_resume o w)) = error_list)
  \/ (forall w, recordingsList (snd (fetchRecordings_resume o w))
                = placeholder_list)
  \/ (exists folder names code,
        OUTPUT_FOLDER = Some folder
        /\ o = Responded (mkResponse code (Some (JArr (map JStr names))))
        /\ names <> []
        /\ forall w, recordingsList (snd (fetchRecordings_resume o w))
                     = map (item_of folder) names).
Proof.
  destruct o as [| [code [v |]]]; [left; reflexivity | | left; reflexivity].
  assert (Hna : (forall l, v <> JArr l) ->
    (forall w, recordingsList
                 (snd (fetchRecordings_resume
                         (Responded (mkResponse code (Some v))) w))
               = error_list)
    \/ (forall w, recordingsList
                    (snd (fetchRecordings_resume
                            (Responded (mkResponse code (Some v))) w))
                  = placeholder_list)).
  { intros Hna.
    destruct (strict_eq_zero (field v "length")) eqn:E; [right | left];
      intros w; rewrite fetchRecordings_resume_non_array by exact Hna;
      rewrite E; reflexivity. }
  destruct v as [| b | n | s | l | kv];
    try (destruct Hna as [H | H]; [intros; discriminate | left; exact H
                                  | right; left; exact H]).
  destruct l as [| x l]; [right; left; reflexivity |].
  destruct (forEach_render_outcome (x :: l))
    as [(names & E & [-> | [folder Hf]] & Hok) | Hbad].
  - discriminate.
  - right. right. exists folder, names, code. rewrite E.
    repeat split; [exact Hf | intros ->; discriminate |].
    intros w. rewrite <- E, fetchRecordings_resume_array.
    unfold try_catch. rewrite Hok, Hf. reflexivity.
  - left. intros w. rewrite fetchRecordings_resume_array.
    unfold try_catch.
    destruct (Hbad (set_recordingsList [] w)) as (e & items & ->).
    reflexivity.
Qed.

Lemma markup_safe_plain s : markup_safe s = true -> markup_plain s = true.
Proof.
  unfold markup_safe, markup_plain.
  induction (list_ascii_of_string s) as [| c l IH]; cbn; [reflexivity |].
  intros H. apply andb_true_iff in H as [Hc Hl].
  rewrite (IH Hl), andb_true_r.
  destruct (markup_special c); [discriminate Hc | reflexivity].
Qed.

(** X11.  With the output folder bound, a response that is a non-empty
    array of file names rebuilds the list as one "recording-item" per
    name, in the order of the response; what the list showed before is
    gone and nothing else in the world changes.  The markup given to
    each item is the template with the title of the name pasted into
    the title element and the folder and the name pasted into the
    [onclick] text of the button.  For a folder and names free of the
    characters that markup treats specially (tag and reference starts,
    quotes, CR, NUL) the title element of every item reads the title of
    its name. *)
Theorem fetchRecordings_renders_all
  (folder : string) (names : list string) (code : nat) (w : world) :
  let q := String (ascii_of_nat 34) "" in
  let n := String (ascii_of_nat 10) "" in
  let markup := fun title folder name : string =>
    n ++ "                    <div class=" ++ q ++ "title" ++ q ++ ">"
    ++ title ++ "</div>" ++ n
    ++ "                    <div class=" ++ q ++ "actions" ++ q ++ ">" ++ n
    ++ "                        <button class=" ++ q ++ "btn" ++ q
    ++ " onclick=" ++ q ++ "window.location.href='/" ++ folder ++ "/"
    ++ name ++ "'" ++ q ++ ">" ++ n
    ++ "                            <i class=" ++ q ++ "fas fa-download" ++ q
    ++ "></i> Download" ++ n
    ++ "                        </button>" ++ n
    ++ "                    </div>" ++ n
    ++ "                " in
  OUTPUT_FOLDER = Some folder -> names <> [] ->
  markup_safe folder = true ->
  forallb markup_safe names = true ->
  fetchRecordings_resume
    (Responded (mkResponse code (Some (JArr (map JStr names))))) w
  = (Ok tt,
     set_recordingsList
       (map (fun f => Div "recording-item" (markup (entry_title f) folder f))
          names) w)
  /\ (forall f, In f names ->
        title_text (markup (entry_title f) folder f) = Some (entry_title f)).
Proof.
  intros q n markup Hf Hne _ Hsafe. split.
  - assert (Hmap : map (item_of folder) names
                   = map (fun f => Div "recording-item"
                                     (markup (entry_title f) folder f)) names).
    { apply map_ext. intros a. unfold item_of. f_equal.
      unfold item_markup, title_markup, markup, q, n, nl, dq. cbn.
      rewrite !append_assoc. reflexivity. }
    rewrite <- Hmap. clear Hmap Hsafe.
    destruct names as [| f names]; [congruence |].
    cbn [map]. rewrite fetchRecordings_resume_array. unfold try_catch.
    change (JStr f :: map JStr names) with (map JStr (f :: names)).
    rewrite (forEach_render_strings folder (f :: names) Hf). reflexivity.
  - intros f Hin.
    assert (Hp : markup_plain (entry_title f) = true).
    { destruct (entry_title_cases f) as [-> | (d & t & Hst & ->)].
      - apply markup_safe_plain.
        rewrite forallb_forall in Hsafe. apply Hsafe, Hin.
      - apply formatted_plain, Hst. }
    unfold title_text, markup, q, n, dq. cbn.
    apply title_content_plain; [exact Hp | reflexivity].
Qed.

(** X12.  The list is rebuilt all or nothing.  After any settled
    recordings request the list shows exactly one of three things: the
    error message alone, the placeholder alone, or (only when the output
    folder is bound and the body is a non-empty array of strings) one
    item per file name.  It never shows a partial list or an item next
    to a message. *)
Theorem recordings_list_all_or_nothing (o : fetch_outcome) (w : world) :
  let l := recordingsList (snd (fetchRecordings_resume o w)) in
  l = error_list \/ l = placeholder_list
  \/ (exists folder names code,
        OUTPUT_FOLDER = Some folder
        /\ o = Responded (mkResponse code (Some (JArr (map JStr names))))
        /\ names <> []
        /\ l = map (item_of folder) names).
Proof.
  cbn zeta.
  destruct (fetchRecordings_list o)
    as [H | [H | (folder & names & code & Hf & Ho & Hne & H)]].
  - left. apply H.
  - right. left. apply H.
  - right. right. exists folder, names, code. auto.
Qed.

(** X13.  The list after a response depends on the response alone: the
    same response leaves the same list whatever it showed before, so
    repeated refreshes never pile up entries. *)
Theorem recordings_list_rebuilt_from_scratch
  (o : fetch_outcome) (w1 w2 : world) :
  recordingsList (snd (fetchRecordings_resume o w1))
  = recordingsList (snd (fetchRecordings_resume o w2)).
Proof.
  destruct (fetchRecordings_list o)
    as [H | [H | (folder & names & code & _ & _ & _ & H)]];
    rewrite (H w1), (H w2); reflexivity.
Qed.

(** X14.  A body that parses but is not an array.  The list shows the
    placeholder when reading [length] from the body gives exactly 0 (the
    empty string, or an object whose [length] is 0) and the error
    message in every other case ([null], numbers, booleans, non-empty
    strings, other objects), because only an array has [forEach]. *)
Theorem fetchRecordings_non_array (code : nat) (v : json) (w : world) :
  (forall l, v <> JArr l) ->
  fst (fetchRecordings_resume (Responded (mkResponse code (Some v))) w) = Ok tt
  /\ recordingsList
       (snd (fetchRecordings_resume (Responded (mkResponse code (Some v))) w))
     = if strict_eq_zero (field v "length")
       then placeholder_list else error_list.
Proof.
  intros Hna. split.
  - apply try_catch_ok. reflexivity.
  - apply fetchRecordings_resume_non_array, Hna.
Qed.

(** ** Further properties: titles tell recordings apart *)

Lemma append_nil_r (s : string) : s ++ "" = s.
Proof. induction s as [| c s IH]; cbn; [reflexivity | now rewrite IH]. Qed.

Lemma entry_title_exact d t :
  stamp d t -> entry_title (motion_name d t) = formatted d t.
Proof.
  intros Hst. unfold entry_title.
  pose proof (match_motion_re d t "" Hst) as H. rewrite append_nil_r in H.
  rewrite (exec_here _ _ _ _ _ H). apply dateStr_of_stamp, Hst.
Qed.

Lemma formatted_injective d t d' t' :
  stamp d t -> stamp d' t' ->
  formatted d t = formatted d' t' -> d = d' /\ t = t'.
Proof.
  intros (Hd & _ & Ht & _) (Hd' & _ & Ht' & _).
  explode8 d Hd. explode6 t Ht. explode8 d' Hd'. explode6 t' Ht'.
  unfold formatted. cbn. intros H. injection H as. subst. auto.
Qed.

(** X15.  Titles tell recordings apart: two conforming file names with
    the same title carry the same date and the same time, so two
    different recordings never show under one title. *)
Theorem entry_title_injective (d t d' t' : string) :
  stamp d t -> stamp d' t' ->
  entry_title (motion_name d t) = entry_title (motion_name d' t') ->
  d = d' /\ t = t'.
Proof.
  intros Hst Hst'. rewrite !entry_title_exact by assumption.
  apply formatted_injective; assumption.
Qed.

End Dashboard.

(** ** Concrete runs *)

Lemma updateStatus_recording_mapping_witness :
  is_StatusSnapshot sample_snapshot 3 true "Recording" "Motion Detected"
  /\ recordingStatus
       (snd (updateStatus_resume
               (Responded (mkResponse 200 (Some sample_snapshot)))
               (on_load sample_document)))
     = "Recording"
  /\ safe_integer 3 = true
  /\ headCount
       (snd (updateStatus_resume
               (Responded (mkResponse 200 (Some sample_snapshot)))
               (on_load sample_document)))
     = "3".
Proof.
  assert (H : is_StatusSnapshot sample_snapshot 3 true "Recording"
                "Motion Detected").
  { exists [("headCount", JNum 3); ("recording", JBool true);
            ("status", JStr "Recording");
            ("motionStatus", JStr "Motion Detected")].
    repeat split; reflexivity. }
  destruct (updateStatus_recording_mapping (on_load sample_document) 200
              sample_snapshot 3 true "Recording" "Motion Detected" H)
    as (_ & Htrue & _ & _ & Hhc & _).
  split; [exact H |].
  split; [exact (proj1 (Htrue eq_refl)) |].
  split; [reflexivity |].
  exact (Hhc eq_refl).
Defined.

Lemma stop_click_witness :
  (isRunning (run sample_origin None []
                (initialized sample_origin sample_document)) = true
   /\ polling
        (step sample_origin None
           (run sample_origin None []
              (initialized sample_origin sample_document)) ClickStop) = false
   /\ status_fetches sample_origin
        (advance sample_origin None 3000
           (step sample_origin None
              (run sample_origin None []
                 (initialized sample_origin sample_document)) ClickStop))
      = status_fetches sample_origin
          (run sample_origin None []
             (initialized sample_origin sample_document)))
  /\ (isRunning (run sample_origin None [ClickStop]
                   (initialized sample_origin sample_document)) = false
      /\ step sample_origin None
           (run sample_origin None [ClickStop]
              (initialized sample_origin sample_document)) ClickStop
         = run sample_origin None [ClickStop]
             (initialized sample_origin sample_document)).
Proof.
  split.
  - assert (H : isRunning (run sample_origin None []
                  (initialized sample_origin sample_document)) = true)
      by reflexivity.
    destruct (proj1 (stop_click sample_origin None sample_document []) H)
      as (_ & _ & _ & Hp & Hn & _).
    split; [exact H |]. split; [exact Hp | exact (Hn 3000)].
  - assert (H : isRunning (run sample_origin None [ClickStop]
                  (initialized sample_origin sample_document)) = false)
      by reflexivity.
    split; [exact H |].
    exact (proj2 (stop_click sample_origin None sample_document [ClickStop]) H).
Defined.

Lemma start_click_witness :
  (isRunning (run sample_origin None [ClickStop]
                (initialized sample_origin sample_document)) = false
   /\ videoFeed_src
        (step sample_origin None
           (run sample_origin None [ClickStop]
              (initialized sample_origin sample_document)) ClickStart)
      = VIDEO_FEED_URL sample_origin
   /\ status_fetches sample_origin
        (advance sample_origin None (1000 * 2 + 500)
           (step sample_origin None
              (run sample_origin None [ClickStop]
                 (initialized sample_origin sample_document)) ClickStart))
      = [0; 0; 1000; 2000])
  /\ (isRunning (run sample_origin None [ClickStop; ClickStart]
                   (initialized sample_origin sample_document)) = true
      /\ step sample_origin None
           (run sample_origin None [ClickStop; ClickStart]
              (initialized sample_origin sample_document)) ClickStart
         = run sample_origin None [ClickStop; ClickStart]
             (initialized sample_origin sample_document)).
Proof.
  split.
  - assert (H : isRunning (run sample_origin None [ClickStop]
                  (initialized sample_origin sample_document)) = false)
      by reflexivity.
    destruct (proj1 (start_click sample_origin None sample_document [ClickStop]) H)
      as (Hsrc & _ & _ & _ & Hq).
    split; [exact H |]. split; [exact Hsrc |].
    assert (Hlt : 500 < 1000) by lia.
    rewrite (Hq 2 500 Hlt). vm_compute. reflexivity.
  - assert (H : isRunning (run sample_origin None [ClickStop; ClickStart]
                  (initialized sample_origin sample_document)) = true)
      by reflexivity.
    split; [exact H |].
    exact (proj2 (start_click sample_origin None sample_document
                    [ClickStop; ClickStart]) H).
Defined.

Lemma start_before_stop_is_noop_witness :
  existsb is_stop [ClickStart; Tick; ClickRefresh; VideoError] = false
  /\ step sample_origin None
       (run sample_origin None [ClickStart; Tick; ClickRefresh; VideoError]
          (initialized sample_origin sample_document)) ClickStart
     = run sample_origin None [ClickStart; Tick; ClickRefresh; VideoError]
         (initialized sample_origin sample_document).
Proof.
  split; [reflexivity |].
  exact (proj2 (proj2
    (start_before_stop_is_noop sample_origin None sample_document
       [ClickStart; Tick; ClickRefresh; VideoError] eq_refl))).
Defined.

Lemma updateStatus_failure_keeps_display_witness :
  no_parsed_body (Responded (mkResponse 502 None)) = true
  /\ status_display
       (snd (updateStatus_resume (Responded (mkResponse 502 None))
               (on_load sample_document)))
     = status_display (on_load sample_document).
Proof.
  split; [reflexivity |].
  exact (proj2 (proj2
    (updateStatus_failure_keeps_display (Responded (mkResponse 502 None))
       (on_load sample_document) eq_refl))).
Defined.

(** An error response whose body is valid JSON is not a failure for the
    script: here a 500 with an error object wipes the head count, the
    status line and the motion line and resets the recording region. *)
Lemma updateStatus_http_error_repaints :
  let o := Responded (mkResponse 500 (Some sample_error_body)) in
  let w :=
    run sample_origin None
      [Deliver 0 (Responded (mkResponse 200 (Some sample_snapshot)))]
      (initialized sample_origin sample_document) in
  http_error o = true
  /\ status_display w
     = ("3", ("Recording", "status-indicator recording"), "Recording",
        "Motion Detected")
  /\ updateStatus_resume o w
     = (Ok tt,
        set_motionStatus ""
          (set_statusText ""
             (set_statusIndicator_className "status-indicator monitoring"
                (set_recordingStatus "Not Recording" (set_headCount "" w)))))
  /\ status_display (snd (updateStatus_resume o w))
     = ("", ("Not Recording", "status-indicator monitoring"), "", "")
  /\ ~ (forall o' w',
          no_parsed_body o' = true \/ http_error o' = true ->
          status_display (snd (updateStatus_resume o' w')) = status_display w').
Proof.
  intros o w. repeat split.
  intros H. specialize (H o w (or_intror eq_refl)). discriminate H.
Qed.

Lemma fetchRecordings_failure_witness :
  no_parsed_body NetworkFailure = true
  /\ map node_text
       (recordingsList
          (snd (fetchRecordings_resume None NetworkFailure
                  (on_load sample_document))))
     = ["Error loading recordings."].
Proof.
  split; [reflexivity |].
  exact (proj1 (proj2 (proj2
    (fetchRecordings_failure None NetworkFailure (on_load sample_document)
       eq_refl)))).
Defined.

Lemma OUTPUT_FOLDER_unbound_witness :
  render_recording None (JStr "motion_20240115_143022.avi")
    (on_load sample_document)
  = (Throw (ReferenceError "OUTPUT_FOLDER"), on_load sample_document).
Proof.
  exact (proj1 (proj2 (OUTPUT_FOLDER_unbound None eq_refl))
           "motion_20240115_143022.avi" (on_load sample_document)).
Defined.

Lemma entry_title_spec_witness :
  stamp "20240115" "143022"
  /\ entry_title (motion_name "20240115" "143022") = "2024-01-15 14:30:22"
  /\ ~ matches_pattern "clip1.avi"
  /\ entry_title "clip1.avi" = "clip1.avi"
  /\ (exists pre d t post,
        matches_at pre d t post "old_motion_20240115_143022.avi.bak"
        /\ entry_title "old_motion_20240115_143022.avi.bak" = formatted d t)
  /\ render_recording (Some "recordings") (JStr "clip1.avi")
       (on_load sample_document)
     = (Ok tt,
        set_recordingsList
          [Div "recording-item"
             (item_markup (entry_title "clip1.avi") "recordings" "clip1.avi")]
          (on_load sample_document))
  /\ markup_plain "clip1.avi" = true
  /\ title_text
       (item_markup (entry_title "clip1.avi") "recordings" "clip1.avi")
     = Some "clip1.avi"
  /\ title_text
       (item_markup (entry_title "old_motion_20240115_143022.avi.bak")
          "recordings" "old_motion_20240115_143022.avi.bak")
     = Some (entry_title "old_motion_20240115_143022.avi.bak").
Proof.
  assert (Hst : stamp "20240115" "143022") by (repeat split; reflexivity).
  assert (Hno : ~ matches_pattern "clip1.avi").
  { intros (pre & d & t & post & E & Hd & _ & Ht & _).
    apply (f_equal String.length) in E. unfold motion_name in E.
    rewrite !append_length, Hd, Ht in E. cbn in E. lia. }
  assert (Hm : matches_pattern "old_motion_20240115_143022.avi.bak").
  { exists "old_", "20240115", "143022", ".bak". split; [reflexivity | exact Hst]. }
  assert (Hp : markup_plain "clip1.avi" = true) by reflexivity.
  pose proof (entry_title_spec (Some "recordings")) as H. cbv zeta in H.
  destruct H as (H1 & _ & H3 & H4 & _ & _ & H7 & _ & H9 & H10).
  split; [exact Hst |].
  split; [exact (H3 _ _ Hst) |].
  split; [exact Hno |].
  split; [exact (H4 _ Hno) |].
  split; [exact (H1 _ Hm) |].
  split; [exact (H7 "recordings" "clip1.avi" (on_load sample_document) eq_refl) |].
  split; [exact Hp |].
  split; [exact (H10 "recordings" "clip1.avi" Hno Hp) |].
  exact (H9 "recordings" "old_motion_20240115_143022.avi.bak" Hm).
Defined.

(** A file name is pasted into the title element as markup, not as
    text: here a name that does not match the pattern and holds a pair
    of tags shows without them, so the title shown is not the file
    name. *)
Lemma entry_title_not_shown_unchanged :
  ~ matches_pattern "<b>x</b>.avi"
  /\ entry_title "<b>x</b>.avi" = "<b>x</b>.avi"
  /\ (exists html,
        render_recording (Some "recordings") (JStr "<b>x</b>.avi")
          (on_load sample_document)
        = (Ok tt,
           set_recordingsList [Div "recording-item" html]
             (on_load sample_document))
        /\ title_text html = Some "x.avi")
  /\ "x.avi" <> "<b>x</b>.avi"
  /\ ~ (forall f html w,
          ~ matches_pattern f ->
          render_recording (Some "recordings") (JStr f) w
          = (Ok tt,
             set_recordingsList
               (recordingsList w ++ [Div "recording-item" html]) w) ->
          title_text html = Some f).
Proof.
  assert (Hno : ~ matches_pattern "<b>x</b>.avi").
  { intros (pre & d & t & post & E & Hd & _ & Ht & _).
    apply (f_equal String.length) in E. unfold motion_name in E.
    rewrite !append_length, Hd, Ht in E. cbn in E. lia. }
  split; [exact Hno |].
  split; [reflexivity |].
  split.
  { exists (item_markup "<b>x</b>.avi" "recordings" "<b>x</b>.avi").
    split; vm_compute; reflexivity. }
  split; [discriminate |].
  intros H.
  specialize (H "<b>x</b>.avi"
                (item_markup "<b>x</b>.avi" "recordings" "<b>x</b>.avi")
                (on_load sample_document) Hno eq_refl).
  vm_compute in H. discriminate H.
Qed.

(** ** Concrete runs of the further properties *)

Lemma polling_cadence_witness :
  existsb is_stop (ClickRefresh :: VideoError :: ClickStart :: repeat Tick 2500)
  = false
  /\ status_fetches sample_origin
       (run sample_origin None
          (ClickRefresh :: VideoError :: ClickStart :: repeat Tick 2500)
          (initialized sample_origin sample_document))
     = [0; 1000; 2000].
Proof.
  assert (H : existsb is_stop
                (ClickRefresh :: VideoError :: ClickStart :: repeat Tick 2500)
              = false) by (vm_compute; reflexivity).
  split; [exact H |].
  rewrite (proj2 (polling_cadence sample_origin None sample_document
                    (ClickRefresh :: VideoError :: ClickStart
                       :: repeat Tick 2500) H)).
  vm_compute. reflexivity.
Defined.

Lemma single_polling_timer_witness :
  In (mkTimer 1 CB_updateStatus 1000 1000)
    (timers (run sample_origin None []
               (initialized sample_origin sample_document)))
  /\ statusInterval
       (run sample_origin None [] (initialized sample_origin sample_document))
     = Some 1.
Proof.
  assert (H : In (mkTimer 1 CB_updateStatus 1000 1000)
                (timers (run sample_origin None []
                           (initialized sample_origin sample_document))))
    by (left; reflexivity).
  split; [exact H |].
  exact (proj1 (proj2 (single_polling_timer sample_origin None
                         sample_document []) _ H)).
Defined.

Lemma updateStatus_any_body_witness :
  updateStatus_resume (Responded (mkResponse 200 (Some JNull)))
    (on_load sample_document)
  = (Ok tt,
     set_console
       (console (on_load sample_document)
        ++ [("Error fetching status:",
             Some (TypeError
                     "Cannot read properties of null (reading 'headCount')"))])
       (on_load sample_document))
  /\ (sample_snapshot <> JNull /\ numbers_exact sample_snapshot = true
      /\ status_display
           (snd (updateStatus_resume
                   (Responded (mkResponse 200 (Some sample_snapshot)))
                   (on_load sample_document)))
         = ("3", ("Recording", "status-indicator recording"), "Recording",
            "Motion Detected"))
  /\ (to_text (field sample_unprintable_headCount "headCount")
      = inl (TypeError "Cannot convert object to primitive value")
      /\ updateStatus_resume
           (Responded (mkResponse 200 (Some sample_unprintable_headCount)))
           (on_load sample_document)
         = (Ok tt,
            set_console
              (console (on_load sample_document)
               ++ [("Error fetching status:",
                    Some (TypeError
                            "Cannot convert object to primitive value"))])
              (on_load sample_document)))
  /\ (to_text (field sample_unprintable_status "status")
      = inl (TypeError "Cannot convert object to primitive value")
      /\ status_display
           (snd (updateStatus_resume
                   (Responded (mkResponse 200 (Some sample_unprintable_status)))
                   (on_load sample_document)))
         = ("3", ("Recording", "status-indicator recording"),
            "Initializing...", "No Motion"))
  /\ (to_text (field sample_unprintable_motion "motionStatus")
      = inl (TypeError "Cannot convert object to primitive value")
      /\ status_display
           (snd (updateStatus_resume
                   (Responded (mkResponse 200 (Some sample_unprintable_motion)))
                   (on_load sample_document)))
         = ("3", ("Recording", "status-indicator recording"), "Recording",
            "No Motion")).
Proof.
  assert (N1 : sample_snapshot <> JNull) by discriminate.
  assert (N2 : sample_unprintable_headCount <> JNull) by discriminate.
  assert (N3 : sample_unprintable_status <> JNull) by discriminate.
  assert (N4 : sample_unprintable_motion <> JNull) by discriminate.
  split;
    [exact (proj1 (updateStatus_any_body 200 JNull (on_load sample_document))
              eq_refl) |].
  split.
  { split; [exact N1 |]. split; [reflexivity |].
    exact (proj1 (proj1 (proj2 (updateStatus_any_body 200 sample_snapshot
                                  (on_load sample_document)))
                    N1 eq_refl "3" "Recording" "Motion Detected"
                    eq_refl eq_refl eq_refl)). }
  split.
  { split; [reflexivity |].
    exact (proj1 (proj2 (proj2 (updateStatus_any_body 200
                                  sample_unprintable_headCount
                                  (on_load sample_document))))
             N2 _ eq_refl). }
  split.
  { split; [reflexivity |].
    exact (proj1 (proj2 (proj2 (proj2 (updateStatus_any_body 200
                                         sample_unprintable_status
                                         (on_load sample_document)))))
             N3 eq_refl "3" _ eq_refl eq_refl). }
  split; [reflexivity |].
  exact (proj2 (proj2 (proj2 (proj2 (updateStatus_any_body 200
                                       sample_unprintable_motion
                                       (on_load sample_document)))))
           N4 eq_refl "3" "Recording" _ eq_refl eq_refl eq_refl).
Defined.

Lemma late_response_repaints_witness :
  isRunning (run sample_origin None [] (initialized sample_origin sample_document))
  = true
  /\ find (fun p => Nat.eqb (fst p) 0)
       (pending (run sample_origin None []
                   (initialized sample_origin sample_document)))
     = Some (0, K_updateStatus)
  /\ sample_snapshot <> JNull
  /\ numbers_exact sample_snapshot = true
  /\ isRunning
       (run sample_origin None
          [ClickStop;
           Deliver 0 (Responded (mkResponse 200 (Some sample_snapshot)))]
          (run sample_origin None []
             (initialized sample_origin sample_document)))
     = false
  /\ status_display
       (run sample_origin None
          [ClickStop;
           Deliver 0 (Responded (mkResponse 200 (Some sample_snapshot)))]
          (run sample_origin None []
             (initialized sample_origin sample_document)))
     = ("3", ("Recording", "status-indicator recording"), "Recording",
        "Motion Detected").
Proof.
  assert (Hne : sample_snapshot <> JNull) by discriminate.
  destruct (late_response_repaints sample_origin None sample_document []
              0 0 200 sample_snapshot "3" "Recording" "Motion Detected"
              eq_refl eq_refl Hne eq_refl eq_refl eq_refl eq_refl)
    as (Hrun & _ & _ & Hdisp).
  split; [reflexivity |]. split; [reflexivity |]. split; [exact Hne |].
  split; [reflexivity |].
  split; [exact Hrun |]. exact Hdisp.
Defined.


Lemma fetchRecordings_renders_all_witness :
  ["motion_20240115_143022.avi"; "clip1.avi"] <> []
  /\ markup_safe "recordings" = true
  /\ forallb markup_safe ["motion_20240115_143022.avi"; "clip1.avi"] = true
  /\ recordingsList
       (snd (fetchRecordings_resume (Some "recordings")
               (Responded
                  (mkResponse 200
                     (Some (JArr (map JStr
                                    ["motion_20240115_143022.avi";
                                     "clip1.avi"])))))
               (on_load sample_document)))
     = [item_of "recordings" "motion_20240115_143022.avi";
        item_of "recordings" "clip1.avi"]
  /\ map (fun n => title_text
                     match n with
                     | Div _ html => html
                     | Markup html => html
                     end)
       (recordingsList
          (snd (fetchRecordings_resume (Some "recordings")
                  (Responded
                     (mkResponse 200
                        (Some (JArr (map JStr
                                       ["motion_20240115_143022.avi";
                                        "clip1.avi"])))))
                  (on_load sample_document))))
     = [Some "2024-01-15 14:30:22"; Some "clip1.avi"].
Proof.
  assert (Hne : ["motion_20240115_143022.avi"; "clip1.avi"] <> [])
    by discriminate.
  split; [exact Hne |]. split; [reflexivity |]. split; [reflexivity |].
  rewrite (proj1 (fetchRecordings_renders_all (Some "recordings") "recordings"
                    ["motion_20240115_143022.avi"; "clip1.avi"] 200
                    (on_load sample_document) eq_refl Hne eq_refl eq_refl)).
  split; vm_compute; reflexivity.
Defined.

Lemma fetchRecordings_non_array_witness :
  (forall l, JStr "" <> JArr l)
  /\ recordingsList
       (snd (fetchRecordings_resume None
               (Responded (mkResponse 200 (Some (JStr ""))))
               (on_load sample_document)))
     = placeholder_list
  /\ (forall l, JObj [] <> JArr l)
  /\ recordingsList
       (snd (fetchRecordings_resume None
               (Responded (mkResponse 200 (Some (JObj []))))
               (on_load sample_document)))
     = error_list.
Proof.
  assert (H1 : forall l, JStr "" <> JArr l) by (intros; discriminate).
  assert (H2 : forall l, JObj [] <> JArr l) by (intros; discriminate).
  split; [exact H1 |].
  split;
    [exact (proj2 (fetchRecordings_non_array None 200 (JStr "")
                     (on_load sample_document) H1)) |].
  split; [exact H2 |].
  exact (proj2 (fetchRecordings_non_array None 200 (JObj [])
                  (on_load sample_document) H2)).
Defined.

Lemma entry_title_injective_witness :
  stamp "20240115" "143022"
  /\ ("20240115" = "20240115" /\ "143022" = "143022").
Proof.
  assert (Hst : stamp "20240115" "143022") by (repeat split; reflexivity).
  split; [exact Hst |].
  exact (entry_title_injective "20240115" "143022" "20240115" "143022"
           Hst Hst eq_refl).
Defined.
